(** * Verification of [gcode_post_processor.py]

    A shallow embedding of the extrusion-modulation script: the multiplier
    of one modifier, the composition over the loaded modifiers, the
    averaging along a move, and the line-by-line rewrite of the G-code
    stream with its extrusion accumulator.

    - Python's [float] is IEEE 754 binary64; it is modelled by the
      [spec_float] of the standard library at precision 53, so every
      arithmetic step rounds as it does in the interpreter.
    - Exceptions are values of [exn], carried by the [result] monad.
    - The [re] patterns of the script are run by a small backtracking
      matcher with Python's greedy semantics.
    - shapely (polygons, distances, interpolation) and the C [pow] behind
      Python's [**] are libraries outside the script: they are operations
      of the classes [Shapely] and [Libm], about which nothing is assumed.
    - The input file is the list of its lines, as iterating over the
      file object yields them; the output file is the list of the lines
      written.  What the text layer of the files does below that
      (decoding the bytes, which can raise, and translating the line
      ends) is outside the model, and so are the [print] calls and the
      plotting after the loop.
    - The integers the script mixes into float arithmetic (the initial
      [last_z = 0], the cold-start [x, y = 0, 0], the exponent [2], the
      sample count) are the floats Python converts them to. *)

From Stdlib Require Import ZArith List String Ascii Bool Lia DecimalString.
From Stdlib Require Import Floats.SpecFloat.
Import ListNotations.

Local Open Scope Z_scope.

(** ** Exceptions and the error monad *)

Inductive exn : Type :=
| ZeroDivisionError
| OverflowError
| ValueError.

Inductive result (A : Type) : Type :=
| Ok (a : A)
| Raise (e : exn).

Arguments Ok {A} a.
Arguments Raise {A} e.

Definition bind {A B : Type} (c : result A) (k : A -> result B) : result B :=
  match c with
  | Ok a => k a
  | Raise e => Raise e
  end.

Declare Scope py_scope.
Delimit Scope py_scope with py.
Notation "x <- c ;; k" := (bind c (fun x => k))
  (at level 61, c at next level, right associativity) : py_scope.
Local Open Scope py_scope.

(** ** Text *)

(** A Python [str] restricted to one-byte characters. *)
Definition text : Type := list ascii.

Definition txt (s : string) : text := list_ascii_of_string s.

Definition ascii_eqb (a b : ascii) : bool := Ascii.eqb a b.

(** [line.startswith(prefix)] *)
Fixpoint startswith (prefix line : text) : bool :=
  match prefix, line with
  | [], _ => true
  | _ :: _, [] => false
  | p :: prefix', c :: line' => ascii_eqb p c && startswith prefix' line'
  end.

(** [c in line], for a one-character string [c] *)
Fixpoint contains_char (c : ascii) (line : text) : bool :=
  match line with
  | [] => false
  | d :: line' => ascii_eqb c d || contains_char c line'
  end.

(** ** Python floats *)

Module PyFloat.

Definition prec : Z := 53.
Definition emax : Z := 1024.

Definition float : Type := spec_float.

Definition valid (x : float) : bool := valid_binary prec emax x.

Definition add : float -> float -> float := SFadd prec emax.
Definition sub : float -> float -> float := SFsub prec emax.
Definition mul : float -> float -> float := SFmul prec emax.

Definition ltb : float -> float -> bool := SFltb.
Definition leb : float -> float -> bool := SFleb.
Definition eqb : float -> float -> bool := SFeqb.

Definition zero : float := S754_zero false.
Definition one : float := S754_finite false 4503599627370496 (-52).
Definition half : float := S754_finite false 4503599627370496 (-53).

(** [float(n)] for an integer [n], and the conversion of an [int]
    operand in mixed arithmetic. *)
Definition of_Z (n : Z) : float := binary_normalize prec emax n 0 false.

(** The float nearest to [n / d], ties to even: [SFdiv] on the
    integers themselves. *)
Definition of_ratio (s : bool) (n d : positive) : float :=
  SFdiv prec emax (S754_finite s n 0) (S754_finite false d 0).

(** [x / y]: Python raises on a zero divisor, of either sign, before
    it looks at [x]. *)
Definition div (x y : float) : result float :=
  if eqb y zero then Raise ZeroDivisionError
  else Ok (SFdiv prec emax x y).

(** [math.sqrt(x)]: a domain error below zero. *)
Definition sqrt (x : float) : result float :=
  if ltb x zero then Raise ValueError
  else Ok (SFsqrt prec emax x).

(** The builtin [min(a, b)]: the first argument unless the second is
    smaller. *)
Definition min (a b : float) : float := if ltb b a then b else a.

Definition is_finite (x : float) : bool :=
  match x with
  | S754_zero _ | S754_finite _ _ _ => true
  | _ => false
  end.

(** *** [float(s)] on a decimal literal *)

Definition is_digit (c : ascii) : bool :=
  let n := N_of_ascii c in (48 <=? n)%N && (n <=? 57)%N.

Definition digit_val (c : ascii) : Z := Z.of_N (N_of_ascii c) - 48.

(** The longest run of digits at the head of [s]: its value after the
    digits already read, how many there are, and what follows. *)
Fixpoint read_digits (acc : Z) (n : nat) (s : text) : Z * nat * text :=
  match s with
  | c :: s' =>
      if is_digit c then read_digits (10 * acc + digit_val c) (S n) s'
      else (acc, n, s)
  | [] => (acc, n, [])
  end.

Definition read_sign (s : text) : bool * text :=
  match s with
  | "-"%char :: s' => (true, s')
  | "+"%char :: s' => (false, s')
  | _ => (false, s)
  end.

Fixpoint pow10 (n : nat) : positive :=
  match n with
  | O => 1
  | S n' => 10 * pow10 n'
  end.

(** The float nearest to [m / 10 ^ frac_digits], signed. *)
Definition of_decimal (neg : bool) (m : Z) (frac_digits : nat) : float :=
  match m with
  | Zpos p => of_ratio neg p (pow10 frac_digits)
  | _ => S754_zero neg
  end.

(** The digits and the point of a literal whose sign is read. *)
Definition of_unsigned (neg : bool) (s1 : text) : result float :=
  let '(ip, ni, s2) := read_digits 0 0 s1 in
  match s2 with
  | [] => if Nat.eqb ni 0 then Raise ValueError else Ok (of_decimal neg ip 0)
  | "."%char :: s3 =>
      let '(m, nf, s4) := read_digits ip 0 s3 in
      match s4 with
      | [] => if Nat.eqb (ni + nf) 0 then Raise ValueError
              else Ok (of_decimal neg m nf)
      | _ :: _ => Raise ValueError
      end
  | _ :: _ => Raise ValueError
  end.

(** [float(s)] for [s] of the shape sign, digits, point, digits, the
    only strings the script converts.  Anything else is a
    [ValueError] here. *)
Definition of_text (s : text) : result float :=
  let '(neg, s1) := read_sign s in of_unsigned neg s1.

(** *** [format(x, ".5f")] *)

(** [n / d] rounded to the nearest integer, ties to even; [d] is
    positive. *)
Definition round_half_even (n d : Z) : Z :=
  let q := n / d in
  match 2 * (n mod d) ?= d with
  | Lt => q
  | Gt => q + 1
  | Eq => if Z.even q then q else q + 1
  end.

(** [m * 2 ^ e * 10 ^ 5] as an integer, correctly rounded. *)
Definition scaled5 (m : positive) (e : Z) : Z :=
  match e with
  | Zneg p => round_half_even (Zpos m * 100000) (2 ^ Zpos p)
  | _ => Zpos m * 2 ^ e * 100000
  end.

Definition digit_char (d : Z) : ascii := ascii_of_N (Z.to_N (48 + d)).

(** The decimal digits of a natural number, no leading zero. *)
Definition dec (n : Z) : text :=
  list_ascii_of_string (NilZero.string_of_uint (N.to_uint (Z.to_N n))).

(** The five digits of [n], which is below [10 ^ 5]. *)
Definition frac5 (n : Z) : text :=
  map (fun k => digit_char ((n / k) mod 10)) [10000; 1000; 100; 10; 1].

Definition sign_text (s : bool) : text := if s then txt "-" else [].

Definition fixed5 (s : bool) (r : Z) : text :=
  sign_text s ++ dec (r / 100000) ++ "."%char :: frac5 (r mod 100000).

Definition format_5f (x : float) : text :=
  match x with
  | S754_nan => txt "nan"
  | S754_infinity s => sign_text s ++ txt "inf"
  | S754_zero s => fixed5 s 0
  | S754_finite s m e => fixed5 s (scaled5 m e)
  end.

End PyFloat.

(** ** The [re] module, as far as the script uses it *)

Module Re.

(** One character position of a pattern. *)
Inductive atom : Type :=
| Chr (c : ascii)           (* a literal character *)
| Any_of (cs : text)        (* [...] listing its characters *)
| Range (lo hi : ascii).    (* [lo-hi] *)

(** An atom with its quantifier; all quantifiers are greedy. *)
Inductive item : Type :=
| One (a : atom)
| Opt (a : atom)             (* a? *)
| Star (a : atom)            (* a* *)
| Plus (a : atom).           (* a+ *)

Definition pattern : Type := list item.

Definition accepts (a : atom) (c : ascii) : bool :=
  match a with
  | Chr d => ascii_eqb d c
  | Any_of cs => contains_char c cs
  | Range lo hi =>
      ((N_of_ascii lo <=? N_of_ascii c) && (N_of_ascii c <=? N_of_ascii hi))%N
  end.

(** [a*] followed by the rest of the pattern [k]: take as many
    characters as possible, give them back one at a time while the
    rest fails.  The result is the number of characters matched. *)
Fixpoint star (a : atom) (k : text -> option nat) (s : text) : option nat :=
  match s with
  | c :: s' =>
      if accepts a c then
        match star a k s' with
        | Some n => Some (S n)
        | None => k s
        end
      else k s
  | [] => k []
  end.

(** The match of [p] at the head of [s], by backtracking: the number
    of characters of the match the engine finds first. *)
Fixpoint match_len (p : pattern) (s : text) : option nat :=
  match p with
  | [] => Some O
  | One a :: p' =>
      match s with
      | c :: s' => if accepts a c then option_map S (match_len p' s') else None
      | [] => None
      end
  | Opt a :: p' =>
      match s with
      | c :: s' =>
          if accepts a c then
            match match_len p' s' with
            | Some n => Some (S n)
            | None => match_len p' s
            end
          else match_len p' s
      | [] => match_len p' []
      end
  | Star a :: p' => star a (match_len p') s
  | Plus a :: p' =>
      match s with
      | c :: s' => if accepts a c then option_map S (star a (match_len p') s') else None
      | [] => None
      end
  end.

(** A match object: the text before the match, the match, the text
    after it. *)
Record match_obj : Type :=
  { before : text; matched : text; after : text }.

(** [p.search(s)]: the match at the leftmost position that has one. *)
Fixpoint search (p : pattern) (s : text) : option match_obj :=
  match match_len p s with
  | Some n => Some {| before := []; matched := firstn n s; after := skipn n s |}
  | None =>
      match s with
      | [] => None
      | c :: s' =>
          match search p s' with
          | Some m => Some {| before := c :: before m; matched := matched m; after := after m |}
          | None => None
          end
      end
  end.

(** [m.group(1)] for the patterns of the script, whose group encloses
    everything after the leading letter. *)
Definition group1 (m : match_obj) : text := tl (matched m).

(** [re.sub(p, repl, s)] for a replacement without escapes: every
    match, left to right and without overlap, is replaced.  [skip]
    counts the characters of the current match still to drop. *)
Fixpoint sub_from (p : pattern) (repl : text) (skip : nat) (s : text) : text :=
  match s with
  | [] =>
      match skip, match_len p [] with
      | O, Some _ => repl
      | _, _ => []
      end
  | c :: s' =>
      match skip with
      | S k => sub_from p repl k s'
      | O =>
          match match_len p (c :: s') with
          | Some (S n) => repl ++ sub_from p repl n s'
          | Some O => repl ++ c :: sub_from p repl O s'
          | None => c :: sub_from p repl O s'
          end
      end
  end.

Definition sub (p : pattern) (repl s : text) : text := sub_from p repl O s.

End Re.

(** ** Configuration: the compiled patterns *)

Definition number_items : Re.pattern :=
  [Re.Opt (Re.Any_of (txt "-+")); Re.Star (Re.Range "0" "9");
   Re.Opt (Re.Chr "."); Re.Plus (Re.Range "0" "9")].

(** [re.compile(r'X([-+]?[0-9]*\.?[0-9]+)')] and its siblings *)
Definition pattern_x : Re.pattern := Re.One (Re.Chr "X") :: number_items.
Definition pattern_y : Re.pattern := Re.One (Re.Chr "Y") :: number_items.
Definition pattern_z : Re.pattern := Re.One (Re.Chr "Z") :: number_items.
Definition pattern_e : Re.pattern := Re.One (Re.Chr "E") :: number_items.

(** ** The libraries outside the script *)

Import PyFloat.

(** A shapely [Point]: its [x] and [y]. *)
Definition point : Type := (float * float)%type.

(** The shapely operations the script calls.  [geom] is what
    [convex_hull] and [unary_union] return. *)
Class Shapely : Type :=
  { geom : Type;
    (** [g.contains(Point(x, y))] *)
    contains : geom -> point -> bool;
    (** [p.distance(q)] *)
    distance : point -> point -> float;
    (** [unary_union(polys)] *)
    unary_union : list geom -> geom;
    (** [LineString([a, b]).length] *)
    line_length : point -> point -> float;
    (** [LineString([a, b]).interpolate(frac, normalized=True)] *)
    interpolate : point -> point -> float -> point }.

(** [x ** y] on floats, which Python hands to the C library and which
    raises [OverflowError] when the result is out of range.  (A negative
    base with a fractional exponent gives a complex number in Python;
    the script's bases are a square's argument and a quotient of
    distances, so that case is outside the interface.) *)
Class Libm : Type :=
  { pow : float -> float -> result float }.

(** ** Modifiers *)

(** The keys of a modifier that depend on its ["modifier_type"].  The
    loading loop appends only these two kinds, so the last [else] of
    [compute_multiplier_for_modifier] is never reached. *)
Inductive shape {S : Shapely} : Type :=
| Shape2D (polygon : geom) (centroid_2d : point)      (* "modifier_type": "2D" *)
| Shape3D (centroid_3d : float * float * float).      (* "modifier_type": "3D" *)

(** One entry of [modifiers], as the loading loop builds it. *)
Record modifier {S : Shapely} : Type :=
  { modifier_shape : shape;
    r_max : float;
    center_multiplier : float;
    edge_multiplier : float;
    gradient_exponent : float;
    min_layer : float }.

(** ** The stream state *)

Record state : Type :=
  { new_E : float;
    last_E : float;
    last_x : option float;
    last_y : option float;
    last_z : float;
    positions_3d : list (float * float * float * float) }.

Definition initial_state : state :=
  {| new_E := zero; last_E := zero;
     last_x := None; last_y := None; last_z := zero;
     positions_3d := [] |}.

(** Where a move starts and ends, and the last known position after it. *)
Record placement : Type :=
  { start_pt : point;
    end_pt : point;
    next_x : option float;
    next_y : option float }.

(** What the loop has done when it stops: the lines written, the state,
    and the exception that stopped it, if any. *)
Record outcome : Type :=
  { written : list text;
    final : state;
    raised : option exn }.

Definition two : float := of_Z 2.

(** The literal [1e-6] *)
Definition epsilon : float := of_ratio false 1 1000000.

Section Engine.

Context {S : Shapely} {L : Libm}.

(** The global list [modifiers] *)
Variable modifiers : list modifier.

(** Lines 125-127: the gradient between centre and edge. *)
Definition gradient (r norm_base : float) (mod_ : modifier) : result float :=
  q <- div r norm_base ;;
  normalized <- pow (min q one) (gradient_exponent mod_) ;;
  Ok (sub (center_multiplier mod_)
          (mul (sub (center_multiplier mod_) (edge_multiplier mod_)) normalized)).

(** [math.sqrt((x - cx)**2 + (y - cy)**2 + (z - cz)**2)] *)
Definition dist3d (x y z cx cy cz : float) : result float :=
  a <- pow (sub x cx) two ;;
  b <- pow (sub y cy) two ;;
  c <- pow (sub z cz) two ;;
  sqrt (add (add a b) c).

Definition compute_multiplier_for_modifier (x y z : float) (mod_ : modifier)
  : result float :=
  if ltb z (min_layer mod_) then Ok one
  else
    match modifier_shape mod_ with
    | Shape2D polygon centroid_2d =>
        let pt2d := (x, y) in
        if negb (contains polygon pt2d) then Ok one
        else gradient (distance pt2d centroid_2d) (r_max mod_) mod_
    | Shape3D (cx, cy, cz) =>
        r3d <- dist3d x y z cx cy cz ;;
        if ltb (r_max mod_) r3d then Ok one
        else gradient r3d (r_max mod_) mod_
    end.

(** The loop of [compute_multiplier_multiple], from [overall] on. *)
Fixpoint multiply_all (x y z : float) (mods : list modifier) (overall : float)
  : result float :=
  match mods with
  | [] => Ok overall
  | mod_ :: mods' =>
      m <- compute_multiplier_for_modifier x y z mod_ ;;
      multiply_all x y z mods' (mul overall m)
  end.

Definition compute_multiplier_multiple (x y z : float) : result float :=
  multiply_all x y z modifiers one.

(** The loop of [compute_average_multiplier] over the indices [is]. *)
Fixpoint sample_all (start end_ : point) (z : float) (num_samples : nat)
    (indices : list nat) (total : float) : result float :=
  match indices with
  | [] => Ok total
  | i :: indices' =>
      frac <- div (add (of_Z (Z.of_nat i)) half) (of_Z (Z.of_nat num_samples)) ;;
      let pt := interpolate start end_ frac in
      m <- compute_multiplier_multiple (fst pt) (snd pt) z ;;
      sample_all start end_ z num_samples indices' (add total m)
  end.

Definition compute_average_multiplier (start end_ : point) (z : float)
    (num_samples : nat) : result float :=
  total <- sample_all start end_ z num_samples (seq 0 num_samples) zero ;;
  div total (of_Z (Z.of_nat num_samples)).

(** The polygons of the 2D modifiers active at [z] *)
Fixpoint applicable_polys (mods : list modifier) (z : float) : list geom :=
  match mods with
  | [] => []
  | mod_ :: mods' =>
      match modifier_shape mod_ with
      | Shape2D polygon _ =>
          if leb (min_layer mod_) z
          then polygon :: applicable_polys mods' z
          else applicable_polys mods' z
      | Shape3D _ => applicable_polys mods' z
      end
  end.

(** Lines 150-156: whether the two ends of a move are in the union. *)
Definition classify (start end_ : point) (z : float) : bool * bool :=
  match applicable_polys modifiers z with
  | [] => (true, true)
  | polys =>
      let union_poly := unary_union polys in
      (contains union_poly (fst start, snd start),
       contains union_poly (fst end_, snd end_))
  end.

Definition compute_effective_multiplier (start end_ : point) (z : float)
    (num_samples : nat) : result float :=
  let '(start_inside, end_inside) := classify start end_ z in
  if Bool.eqb start_inside end_inside
  then compute_average_multiplier start end_ z num_samples
  else Ok one.

(** *** The rewrite loop *)

(** Lines 179-181: the height after this line. *)
Definition scan_z (st : state) (line : text) : result float :=
  match Re.search pattern_z line with
  | Some z_match => of_text (Re.group1 z_match)
  | None => Ok (last_z st)
  end.

(** Lines 190-201: the ends of the move. *)
Definition locate (st : state) (x_match y_match : option Re.match_obj)
  : result placement :=
  match x_match, y_match with
  | Some xm, Some ym =>
      x <- of_text (Re.group1 xm) ;;
      y <- of_text (Re.group1 ym) ;;
      let start :=
        match last_x st, last_y st with
        | Some lx, Some ly => (lx, ly)
        | _, _ => (x, y)
        end in
      Ok {| start_pt := start; end_pt := (x, y);
            next_x := Some x; next_y := Some y |}
  | _, _ =>
      match last_x st, last_y st with
      | Some lx, Some ly =>
          Ok {| start_pt := (lx, ly); end_pt := (lx, ly);
                next_x := last_x st; next_y := last_y st |}
      | _, _ =>
          Ok {| start_pt := (zero, zero); end_pt := (zero, zero);
                next_x := last_x st; next_y := last_y st |}
      end
  end.

(** Lines 203-205 and 212: the multiplier of the move. *)
Definition move_multiplier (start end_ : point) (z : float) : result float :=
  let total_length := line_length start end_ in
  if ltb total_length epsilon
  then compute_multiplier_multiple (fst end_) (snd end_) z
  else compute_effective_multiplier start end_ z 5.

(** Lines 206-210 and 213-217: accumulate, rewrite, record. *)
Definition emit_move (st : state) (line : text) (current_E delta_E : float)
    (pl : placement) (z m : float) : state * text :=
  let new_E' := add (new_E st) (mul delta_E m) in
  let new_line := Re.sub pattern_e ("E"%char :: format_5f new_E') line in
  ({| new_E := new_E'; last_E := current_E;
      last_x := next_x pl; last_y := next_y pl; last_z := z;
      positions_3d :=
        positions_3d st ++ [(fst (end_pt pl), snd (end_pt pl), z, m)] |},
   new_line).

Definition with_z (st : state) (z : float) : state :=
  {| new_E := new_E st; last_E := last_E st;
     last_x := last_x st; last_y := last_y st; last_z := z;
     positions_3d := positions_3d st |}.

Definition with_reset (st : state) (reset_val : float) : state :=
  {| new_E := reset_val; last_E := reset_val;
     last_x := last_x st; last_y := last_y st; last_z := last_z st;
     positions_3d := positions_3d st |}.

(** One turn of the loop at lines 169-221: the state after the line
    and the line written. *)
Definition process_line (st : state) (line : text) : result (state * text) :=
  if startswith (txt "G92") line && contains_char "E" line then
    match Re.search pattern_e line with
    | Some match_ =>
        reset_val <- of_text (Re.group1 match_) ;;
        Ok (with_reset st reset_val, line)
    | None => Ok (st, line)
    end
  else
    z <- scan_z st line ;;
    if startswith (txt "G1") line && contains_char "E" line then
      let x_match := Re.search pattern_x line in
      let y_match := Re.search pattern_y line in
      match Re.search pattern_e line with
      | Some e_match =>
          current_E <- of_text (Re.group1 e_match) ;;
          let delta_E := sub current_E (last_E st) in
          pl <- locate st x_match y_match ;;
          m <- move_multiplier (start_pt pl) (end_pt pl) z ;;
          Ok (emit_move st line current_E delta_E pl z m)
      | None => Ok (with_z st z, line)
      end
    else Ok (with_z st z, line).

(** The loop over the lines of the input file.  An exception ends the
    script: [written] is then what was written before the line that
    raised, and [final] the state after the last line written; the
    assignments the failing line made before it raised ([last_z],
    [last_E], [last_x], [last_y]) are lost with the process and are
    not in [final]. *)
Fixpoint run (st : state) (lines : list text) : outcome :=
  match lines with
  | [] => {| written := []; final := st; raised := None |}
  | line :: lines' =>
      match process_line st line with
      | Ok (st', out) =>
          let o := run st' lines' in
          {| written := out :: written o; final := final o; raised := raised o |}
      | Raise e => {| written := []; final := st; raised := Some e |}
      end
  end.

End Engine.

(** ** A reference instance of the libraries

    Plane geometry over binary64 with rectangles for polygons, enough to
    run the engine on concrete streams.  A [geom] is a list of open
    rectangles [(xmin, ymin, xmax, ymax)] and stands for their union;
    [pow] covers the exponents 0, 1 and 2, whose results are exact
    roundings. *)

Module Reference.

Definition box : Type := (float * float * float * float)%type.

Definition in_box (p : point) (b : box) : bool :=
  let '(xmin, ymin, xmax, ymax) := b in
  ltb xmin (fst p) && ltb (fst p) xmax && ltb ymin (snd p) && ltb (snd p) ymax.

Definition euclid (p q : point) : float :=
  let dx := sub (fst p) (fst q) in
  let dy := sub (snd p) (snd q) in
  SFsqrt prec emax (add (mul dx dx) (mul dy dy)).

Definition along (a b : point) (frac : float) : point :=
  (add (fst a) (mul frac (sub (fst b) (fst a))),
   add (snd a) (mul frac (sub (snd b) (snd a)))).

Definition pow012 (x y : float) : result float :=
  if eqb y zero then Ok one
  else if eqb y one then Ok x
  else if eqb y two then
    let r := mul x x in
    if is_finite x && negb (is_finite r) then Raise OverflowError else Ok r
  else Raise ValueError.

#[export] Instance shapely : Shapely :=
  {| geom := list box;
     contains := fun g p => existsb (in_box p) g;
     distance := euclid;
     unary_union := @List.concat box;
     line_length := euclid;
     interpolate := along |}.

#[export] Instance libm : Libm := {| pow := pow012 |}.

Definition fl (s : string) : float :=
  match of_text (txt s) with
  | Ok x => x
  | Raise _ => S754_nan
  end.

(** A square footprint from (0, 0) to (10, 10) with the constant
    multiplier 1.5 of [modifier1.stl]'s entry in [modifier_defs]. *)
Definition square_mod : modifier :=
  {| modifier_shape := Shape2D [(fl "0", fl "0", fl "10", fl "10")] (fl "5", fl "5");
     r_max := euclid (fl "5", fl "5") (fl "0", fl "0");
     center_multiplier := fl "1.5";
     edge_multiplier := fl "1.5";
     gradient_exponent := fl "1.0";
     min_layer := fl "0.0" |}.

(** A 3D modifier whose vertices all coincide at the origin: its
    bounding radius is 0. *)
Definition point_mod : modifier :=
  {| modifier_shape := Shape3D (zero, zero, zero);
     r_max := zero;
     center_multiplier := fl "2";
     edge_multiplier := fl "2";
     gradient_exponent := fl "2";
     min_layer := fl "0.0" |}.

(** A sphere of radius 4 about (20, 20, 0), 2.0 at the centre and 1.0
    at the edge. *)
Definition ball_mod : modifier :=
  {| modifier_shape := Shape3D (fl "20", fl "20", zero);
     r_max := fl "4";
     center_multiplier := fl "2";
     edge_multiplier := fl "1";
     gradient_exponent := fl "1";
     min_layer := fl "0.0" |}.

(** 2 ** 652, a coordinate whose square overflows. *)
Definition huge : float := S754_finite false 4503599627370496 600.

Definition lines (l : list string) : list text := map txt l.

(** A square like [square_mod] with the constant multiplier [c]. *)
Definition constant_square (c : string) : modifier :=
  {| modifier_shape := Shape2D [(fl "0", fl "0", fl "10", fl "10")] (fl "5", fl "5");
     r_max := euclid (fl "5", fl "5") (fl "0", fl "0");
     center_multiplier := fl c;
     edge_multiplier := fl c;
     gradient_exponent := fl "1.0";
     min_layer := fl "0.0" |}.

(** A state in the middle of a print: raw E at 5, accumulator at 7.5,
    last move ended at (5, 5). *)
Definition mid_print : state :=
  {| new_E := fl "7.5"; last_E := fl "5";
     last_x := Some (fl "5"); last_y := Some (fl "5"); last_z := zero;
     positions_3d := [(fl "5", fl "5", zero, fl "1.5")] |}.

(** The state after a move to (1, 2). *)
Definition at_1_2 : state :=
  {| new_E := zero; last_E := zero;
     last_x := Some (fl "1"); last_y := Some (fl "2"); last_z := zero;
     positions_3d := [] |}.

End Reference.

(** ** Specifications the theorems are stated with *)

(** The words a pattern matches, whatever the order in which the
    matcher tries them. *)
Fixpoint lang (p : Re.pattern) (w : text) : Prop :=
  match p with
  | [] => w = []
  | Re.One a :: p' =>
      exists c w', w = c :: w' /\ Re.accepts a c = true /\ lang p' w'
  | Re.Opt a :: p' =>
      lang p' w \/
      exists c w', w = c :: w' /\ Re.accepts a c = true /\ lang p' w'
  | Re.Star a :: p' =>
      exists u v, w = u ++ v /\ forallb (Re.accepts a) u = true /\ lang p' v
  | Re.Plus a :: p' =>
      exists c u v, w = c :: u ++ v /\ Re.accepts a c = true /\
                    forallb (Re.accepts a) u = true /\ lang p' v
  end.

(** [Rewritten p repl s t]: [t] is [s] with every match of [p], taken
    left to right, replaced by [repl], and every character outside
    the matches kept. *)
Inductive Rewritten (p : Re.pattern) (repl : text) : text -> text -> Prop :=
| rw_end : Rewritten p repl [] []
| rw_keep c s t :
    Re.match_len p (c :: s) = None ->
    Rewritten p repl s t ->
    Rewritten p repl (c :: s) (c :: t)
| rw_match w s t :
    w <> [] ->
    Re.match_len p (w ++ s) = Some (List.length w) ->
    lang p w ->
    Rewritten p repl s t ->
    Rewritten p repl (w ++ s) (repl ++ t).

(** A pattern that matches no empty word at any position. *)
Definition never_empty (p : Re.pattern) : Prop :=
  forall s, Re.match_len p s <> Some 0%nat.

(** The results of a list of evaluations, or the first exception. *)
Fixpoint collect {A : Type} (l : list (result A)) : result (list A) :=
  match l with
  | [] => Ok []
  | r :: l' => x <- r ;; xs <- collect l' ;; Ok (x :: xs)
  end.


(** The point multiplier at the fraction [(i + 0.5) / samples] of the
    segment. *)
Definition multiplier_at_sample {S : Shapely} {L : Libm}
    (modifiers : list modifier) (start end_ : point) (z : float)
    (samples i : nat) : result float :=
  frac <- div (add (of_Z (Z.of_nat i)) half) (of_Z (Z.of_nat samples)) ;;
  let pt := interpolate start end_ frac in
  compute_multiplier_multiple modifiers (fst pt) (snd pt) z.

(** The arithmetic mean of the point multipliers at the [samples]
    interior points. *)
Definition mean_of_samples {S : Shapely} {L : Libm}
    (modifiers : list modifier) (start end_ : point) (z : float)
    (samples : nat) : result float :=
  ms <- collect (map (multiplier_at_sample modifiers start end_ z samples)
                     (seq 0 samples)) ;;
  div (fold_left add ms zero) (of_Z (Z.of_nat samples)).

(** The rewrite the specification describes: the first extrusion field
    of the line replaced, nothing else. *)
Definition replace_first_E (repl line : text) : text :=
  match Re.search pattern_e line with
  | Some m => Re.before m ++ repl ++ Re.after m
  | None => line
  end.

(** A line of the rewrite loop's extrusion branch. *)
Definition qualifies (line : text) : bool :=
  startswith (txt "G1") line && contains_char "E" line.

(** Text that ends in a point and five digits. *)
Definition five_decimals (t : text) : Prop :=
  exists int_part d1 d2 d3 d4 d5,
    t = int_part ++ "."%char :: [d1; d2; d3; d4; d5] /\
    forallb is_digit [d1; d2; d3; d4; d5] = true.

(** How an output line relates to its input line when the accumulator
    is [v] after it: a line of the extrusion branch in which an E
    number is found has its first E number, and every later one,
    replaced by [E] and [v] in [.5f]; any other line is kept. *)
Definition line_rewritten (v : float) (line out : text) : Prop :=
  let field := "E"%char :: format_5f v in
  (forall tok,
      qualifies line = true ->
      Re.search pattern_e line = Some tok ->
      out = Re.before tok ++ field ++ Re.sub pattern_e field (Re.after tok) /\
      Rewritten pattern_e field line out /\
      (is_finite v = true -> five_decimals (format_5f v))) /\
  (qualifies line = false \/ Re.search pattern_e line = None -> out = line).

(** The last known position and the recorded moves agree: either no
    position is known and every move recorded so far is at the origin,
    or both coordinates are known and they are those of the last move
    recorded. *)
Definition tracked (st : state) : Prop :=
  (last_x st = None /\ last_y st = None /\
   Forall (fun p => fst (fst (fst p)) = zero /\ snd (fst (fst p)) = zero)
          (positions_3d st)) \/
  (exists x y z m earlier,
      last_x st = Some x /\ last_y st = Some y /\
      positions_3d st = earlier ++ [(x, y, z, m)]).

(** Two states that differ at most in the recorded moves. *)
Definition same_registers (st1 st2 : state) : Prop :=
  new_E st1 = new_E st2 /\ last_E st1 = last_E st2 /\
  last_x st1 = last_x st2 /\ last_y st1 = last_y st2 /\
  last_z st1 = last_z st2.

(** * Facts *)

(** ** The models of [float], [format] and [re] on known values *)

Example float_of_a_tenth :
  of_text (txt "0.1") = Ok (S754_finite false 7205759403792794 (-56)).
Proof. vm_compute. reflexivity. Qed.

Example float_of_signed_fraction :
  of_text (txt "-.5") = Ok (S754_finite true 4503599627370496 (-53)).
Proof. vm_compute. reflexivity. Qed.

Example epsilon_value : epsilon = S754_finite false 4722366482869645 (-72).
Proof. vm_compute. reflexivity. Qed.

Example format_rounds_half_to_even :
  format_5f (Reference.fl "0.015625") = txt "0.01562" /\
  format_5f (Reference.fl "2.675") = txt "2.67500" /\
  format_5f (Reference.fl "-0.000001") = txt "-0.00000" /\
  format_5f (Reference.fl "99999.999996") = txt "100000.00000".
Proof. repeat split; vm_compute; reflexivity. Qed.

Example search_backtracks_over_the_point :
  Re.search pattern_e (txt "G1 X1.5 Y-2 E12.; E7.25.3")
    = Some {| Re.before := txt "G1 X1.5 Y-2 "; Re.matched := txt "E12";
              Re.after := txt ".; E7.25.3" |}.
Proof. vm_compute. reflexivity. Qed.

Example sub_replaces_every_match :
  Re.sub pattern_e (txt "E<r>") (txt "G1 X1 E1.5 ; LINE2 E-3. EE4.5.6E7")
    = txt "G1 X1 E<r> ; LINE<r> E<r>. EE<r>.6E<r>".
Proof. vm_compute. reflexivity. Qed.

(** ** Multiplying by 1.0 *)

Lemma shr_exact_52 (m : positive) :
  iter_pos shr_1 52
    {| shr_m := Zpos (4503599627370496 * m); shr_r := false; shr_s := false |}
  = {| shr_m := Zpos m; shr_r := false; shr_s := false |}.
Proof. vm_compute. reflexivity. Qed.

Lemma digits_shift_52 (m : positive) :
  Zpos (digits2_pos (4503599627370496 * m)) = Zpos (digits2_pos m) + 52.
Proof. cbn [Pos.mul digits2_pos]. lia. Qed.

(** [1.0 * x] is [x], bit for bit, on every binary64 value. *)
Lemma mul_one_l (x : float) : valid x = true -> mul one x = x.
Proof.
  destruct x as [s | s | | s m e]; try reflexivity.
  unfold valid, valid_binary, bounded, canonical_mantissa.
  intros H. apply andb_true_iff in H. destruct H as [Hc He].
  apply Z.eqb_eq in Hc.
  unfold mul, one, SFmul, binary_round_aux, shr_fexp.
  cbn [xorb Zdigits2 shr_record_of_loc].
  rewrite digits_shift_52.
  replace (Zpos (digits2_pos m) + 52 + (-52 + e)) with (Zpos (digits2_pos m) + e) by lia.
  rewrite Hc.
  replace (e - (-52 + e)) with 52 by lia.
  cbn [shr]. rewrite shr_exact_52.
  cbn [shr_m loc_of_shr_record round_nearest_even Zdigits2].
  replace (-52 + e + 52) with e by lia.
  rewrite Hc, Z.sub_diag. cbn [shr shr_m].
  rewrite He. reflexivity.
Qed.

Lemma mul_one_r (x : float) : valid x = true -> mul x one = x.
Proof.
  destruct x as [s | s | | s m e]; try (destruct s; reflexivity); try reflexivity.
  unfold valid, valid_binary, bounded, canonical_mantissa.
  intros H. apply andb_true_iff in H. destruct H as [Hc He].
  apply Z.eqb_eq in Hc.
  unfold mul, one, SFmul, binary_round_aux, shr_fexp.
  rewrite xorb_false_r, (Pos.mul_comm m).
  cbn [Zdigits2 shr_record_of_loc].
  rewrite digits_shift_52.
  replace (Zpos (digits2_pos m) + 52 + (e + -52)) with (Zpos (digits2_pos m) + e) by lia.
  rewrite Hc.
  replace (e - (e + -52)) with 52 by lia.
  cbn [shr]. rewrite shr_exact_52.
  cbn [shr_m loc_of_shr_record round_nearest_even Zdigits2].
  replace (e + -52 + 52) with e by lia.
  rewrite Hc, Z.sub_diag. cbn [shr shr_m].
  rewrite He. reflexivity.
Qed.

Lemma valid_one : valid one = true.
Proof. reflexivity. Qed.

(** ** The matcher *)

Section StarFacts.
Variable a : Re.atom.
Variable k : text -> option nat.
Variable Lk : text -> Prop.
Hypothesis k_sound :
  forall s n, k s = Some n -> (n <= List.length s)%nat /\ Lk (firstn n s).

Lemma star_sound s n :
  Re.star a k s = Some n ->
  (n <= List.length s)%nat /\
  exists u v, firstn n s = u ++ v /\ forallb (Re.accepts a) u = true /\ Lk v.
Proof.
  revert n. induction s as [| c s IH]; intros n H; simpl in H.
  - apply k_sound in H. destruct H as [Hn HL]. split; [exact Hn |].
    exists [], (firstn n []). auto.
  - destruct (Re.accepts a c) eqn:Hc.
    + destruct (Re.star a k s) as [n' |] eqn:Hs.
      * inversion H; subst n. destruct (IH n' eq_refl) as [Hn (u & v & Huv & Hu & Hv)].
        split; [simpl; lia |].
        exists (c :: u), v. simpl. rewrite Huv, Hc, Hu. auto.
      * apply k_sound in H. destruct H as [Hn HL]. split; [exact Hn |].
        exists [], (firstn n (c :: s)). auto.
    + apply k_sound in H. destruct H as [Hn HL]. split; [exact Hn |].
      exists [], (firstn n (c :: s)). auto.
Qed.
End StarFacts.

Lemma match_len_sound p :
  forall s n, Re.match_len p s = Some n ->
              (n <= List.length s)%nat /\ lang p (firstn n s).
Proof.
  induction p as [| it p IH]; intros s n H.
  - inversion H; subst. simpl. split; [lia | reflexivity].
  - destruct it as [a | a | a | a]; simpl in H.
    + destruct s as [| c s]; [discriminate |].
      destruct (Re.accepts a c) eqn:Hc; [| discriminate].
      destruct (Re.match_len p s) as [n' |] eqn:Hm; [| discriminate].
      inversion H; subst n. destruct (IH _ _ Hm) as [Hn HL].
      split; [simpl; lia |]. simpl. exists c, (firstn n' s). auto.
    + destruct s as [| c s].
      * destruct (IH _ _ H) as [Hn HL]. split; [exact Hn |]. left. exact HL.
      * destruct (Re.accepts a c) eqn:Hc.
        -- destruct (Re.match_len p s) as [n' |] eqn:Hm.
           ++ inversion H; subst n. destruct (IH _ _ Hm) as [Hn HL].
              split; [simpl; lia |]. right. exists c, (firstn n' s). auto.
           ++ destruct (IH _ _ H) as [Hn HL]. split; [exact Hn |]. left. exact HL.
        -- destruct (IH _ _ H) as [Hn HL]. split; [exact Hn |]. left. exact HL.
    + apply (star_sound a (Re.match_len p) (lang p) IH) in H. exact H.
    + destruct s as [| c s]; [discriminate |].
      destruct (Re.accepts a c) eqn:Hc; [| discriminate].
      destruct (Re.star a (Re.match_len p) s) as [n' |] eqn:Hm; [| discriminate].
      inversion H; subst n.
      apply (star_sound a (Re.match_len p) (lang p) IH) in Hm.
      destruct Hm as [Hn (u & v & Huv & Hu & Hv)].
      split; [simpl; lia |]. simpl. exists c, u, v. rewrite Huv. auto.
Qed.

(** ** Facts about the float literals *)

Lemma read_digits_app u :
  forall acc n rest,
    forallb is_digit u = true ->
    exists acc', read_digits acc n (u ++ rest)
                 = read_digits acc' (List.length u + n) rest.
Proof.
  induction u as [| c u IH]; intros acc n rest H;
    cbn [read_digits app forallb List.length] in *.
  - exists acc. reflexivity.
  - apply andb_true_iff in H. destruct H as [Hc Hu]. rewrite Hc.
    destruct (IH (10 * acc + digit_val c) (S n) rest Hu) as [acc' E].
    exists acc'. rewrite E. f_equal. lia.
Qed.

Lemma read_digits_all u acc n :
  forallb is_digit u = true ->
  exists acc', read_digits acc n u = (acc', (List.length u + n)%nat, []).
Proof.
  intros H. destruct (read_digits_app u acc n [] H) as [acc' E].
  rewrite app_nil_r in E. exists acc'. exact E.
Qed.

Lemma of_unsigned_digits neg u :
  forallb is_digit u = true -> u <> [] ->
  exists x, of_unsigned neg u = Ok x.
Proof.
  intros Hu Hne. unfold of_unsigned.
  destruct (read_digits_all u 0 0 Hu) as [acc' E]. rewrite E.
  destruct u as [| c u]; [congruence |]. simpl. eauto.
Qed.

Lemma of_unsigned_point neg u f :
  forallb is_digit u = true -> forallb is_digit f = true -> f <> [] ->
  exists x, of_unsigned neg (u ++ "."%char :: f) = Ok x.
Proof.
  intros Hu Hf Hne. unfold of_unsigned.
  destruct (read_digits_app u 0 0 ("."%char :: f) Hu) as [acc' E]. rewrite E.
  simpl read_digits at 1. cbv iota beta.
  destruct (read_digits_all f acc' 0 Hf) as [m E']. rewrite E'.
  destruct f as [| c f]; [congruence |].
  replace (List.length u + 0 + (List.length (c :: f) + 0))%nat
    with (S (List.length u + List.length f)) by (simpl; lia).
  simpl. eauto.
Qed.

Lemma read_sign_other c s :
  c <> "-"%char -> c <> "+"%char -> read_sign (c :: s) = (false, c :: s).
Proof.
  intros Hm Hp.
  destruct c as [[] [] [] [] [] [] [] []]; try reflexivity; congruence.
Qed.

Lemma digit_not_sign c :
  is_digit c = true -> c <> "-"%char /\ c <> "+"%char /\ c <> "."%char.
Proof.
  intros H. repeat split; intros ->; discriminate.
Qed.

Lemma accepts_digit c : Re.accepts (Re.Range "0" "9") c = is_digit c.
Proof. reflexivity. Qed.

Lemma accepts_chr d c : Re.accepts (Re.Chr d) c = true -> c = d.
Proof. simpl. unfold ascii_eqb. intros H. apply Ascii.eqb_eq in H. congruence. Qed.

Lemma accepts_sign c :
  Re.accepts (Re.Any_of (txt "-+")) c = true -> c = "-"%char \/ c = "+"%char.
Proof.
  simpl. unfold ascii_eqb. rewrite orb_false_r. intros H.
  apply orb_true_iff in H. destruct H as [H | H]; apply Ascii.eqb_eq in H; auto.
Qed.

Lemma forallb_digits_eq u :
  forallb (Re.accepts (Re.Range "0" "9")) u = forallb is_digit u.
Proof. reflexivity. Qed.

(** An unsigned number of the patterns converts. *)
Lemma unsigned_number_converts neg w :
  lang [Re.Star (Re.Range "0" "9"); Re.Opt (Re.Chr "."); Re.Plus (Re.Range "0" "9")] w ->
  (exists x, of_unsigned neg w = Ok x) /\
  (exists c w', w = c :: w' /\ c <> "-"%char /\ c <> "+"%char).
Proof.
  intros (u & v & -> & Hu & Hv). rewrite forallb_digits_eq in Hu.
  assert (Hplus : forall t, lang [Re.Plus (Re.Range "0" "9")] t ->
                            forallb is_digit t = true /\ t <> []).
  { intros t (c & u' & v' & -> & Hc & Hu' & ->). rewrite app_nil_r.
    rewrite accepts_digit in Hc. rewrite forallb_digits_eq in Hu'.
    simpl. rewrite Hc, Hu'. split; [reflexivity | discriminate]. }
  destruct Hv as [Hv | (c & v' & -> & Hc & Hv)].
  - destruct (Hplus _ Hv) as [Hd Hne]. split.
    + apply of_unsigned_digits.
      * rewrite forallb_app, Hu, Hd. reflexivity.
      * destruct u; [exact Hne | discriminate].
    + destruct u as [| c u].
      * destruct v as [| c v]; [congruence |]. simpl in Hd.
        apply andb_true_iff in Hd. destruct Hd as [Hc _].
        exists c, v. split; [reflexivity |]. apply digit_not_sign in Hc. tauto.
      * simpl in Hu. apply andb_true_iff in Hu. destruct Hu as [Hc _].
        exists c, (u ++ v). split; [reflexivity |]. apply digit_not_sign in Hc. tauto.
  - apply accepts_chr in Hc. subst c. destruct (Hplus _ Hv) as [Hd Hne]. split.
    + apply of_unsigned_point; assumption.
    + destruct u as [| c u].
      * exists "."%char, v'. repeat split; discriminate.
      * simpl in Hu. apply andb_true_iff in Hu. destruct Hu as [Hc _].
        exists c, (u ++ "."%char :: v'). split; [reflexivity |].
        apply digit_not_sign in Hc. tauto.
Qed.

Lemma number_converts w :
  lang number_items w -> exists x, of_text w = Ok x.
Proof.
  intros [H | (c & w' & -> & Hc & H)].
  - destruct (unsigned_number_converts false _ H) as [[x Hx] (c & w' & -> & Hm & Hp)].
    unfold of_text. rewrite (read_sign_other c w' Hm Hp). eauto.
  - apply accepts_sign in Hc. destruct Hc as [-> | ->].
    + destruct (unsigned_number_converts true _ H) as [[x Hx] _]. exists x. exact Hx.
    + destruct (unsigned_number_converts false _ H) as [[x Hx] _]. exists x. exact Hx.
Qed.

(** ** [search] and [sub] *)

Lemma search_here p s n :
  Re.match_len p s = Some n ->
  s = firstn n s ++ skipn n s /\
  Re.match_len p (firstn n s ++ skipn n s) = Some (List.length (firstn n s)) /\
  lang p (firstn n s).
Proof.
  intros Hm. destruct (match_len_sound p _ _ Hm) as [Hn HL].
  rewrite firstn_skipn, length_firstn, Nat.min_l by exact Hn. auto.
Qed.

Lemma search_spec p s :
  forall m, Re.search p s = Some m ->
    s = Re.before m ++ Re.matched m ++ Re.after m /\
    Re.match_len p (Re.matched m ++ Re.after m) = Some (List.length (Re.matched m)) /\
    lang p (Re.matched m) /\
    (forall a b, Re.before m = a ++ b -> b <> [] ->
                 Re.match_len p (b ++ Re.matched m ++ Re.after m) = None).
Proof.
  induction s as [| c s IH]; intros m H; cbn [Re.search] in H.
  - destruct (Re.match_len p []) as [n |] eqn:Hm; [| discriminate].
    inversion H; subst m; clear H. cbn [Re.before Re.matched Re.after app].
    destruct (search_here p _ _ Hm) as (E & Hl & HL).
    split; [exact E | split; [exact Hl | split; [exact HL |]]].
    intros a b Eab Hb. destruct a; destruct b; simpl in Eab; congruence.
  - destruct (Re.match_len p (c :: s)) as [n |] eqn:Hm.
    + inversion H; subst m; clear H. cbn [Re.before Re.matched Re.after app].
      destruct (search_here p _ _ Hm) as (E & Hl & HL).
      split; [exact E | split; [exact Hl | split; [exact HL |]]].
      intros a b Eab Hb. destruct a; destruct b; simpl in Eab; congruence.
    + destruct (Re.search p s) as [m' |] eqn:Hs; [| discriminate].
      inversion H; subst m; clear H. cbn [Re.before Re.matched Re.after].
      destruct (IH m' eq_refl) as (E & Hl & HL & Hleft).
      split; [simpl; rewrite <- E; reflexivity |].
      split; [exact Hl | split; [exact HL |]].
      intros a b Eab Hb. destruct a as [| a0 a].
      * simpl in Eab. subst b. simpl. rewrite <- E. exact Hm.
      * simpl in Eab. injection Eab as _ Eab'. exact (Hleft a b Eab' Hb).
Qed.

Lemma sub_from_skip p repl s :
  forall n, (n <= List.length s)%nat ->
            Re.sub_from p repl n s = Re.sub_from p repl 0 (skipn n s).
Proof.
  induction s as [| c s IH]; intros n Hn.
  - simpl in Hn. assert (n = 0%nat) by lia. subst n. reflexivity.
  - destruct n as [| n]; [reflexivity |].
    simpl in Hn. cbn [Re.sub_from skipn]. apply IH. lia.
Qed.

Lemma one_never_empty a p : never_empty (Re.One a :: p).
Proof.
  intros s H. simpl in H. destruct s as [| c s]; [discriminate |].
  destruct (Re.accepts a c); [| discriminate].
  destruct (Re.match_len p s); discriminate.
Qed.

Lemma sub_rewritten p repl :
  never_empty p -> forall s, Rewritten p repl s (Re.sub p repl s).
Proof.
  intros Hne s. unfold Re.sub.
  remember (List.length s) as k eqn:Hk. revert s Hk.
  induction k as [k IH] using lt_wf_ind. intros s Hk.
  destruct s as [| c s].
  - simpl. destruct (Re.match_len p []) as [n |] eqn:Hm; [| constructor].
    destruct (match_len_sound p _ _ Hm) as [Hn _]. simpl in Hn.
    assert (n = 0%nat) by lia. subst n. elim (Hne _ Hm).
  - cbn [Re.sub_from].
    destruct (Re.match_len p (c :: s)) as [[| n] |] eqn:Hm.
    + elim (Hne _ Hm).
    + destruct (match_len_sound p _ _ Hm) as [Hn HL]. simpl in Hn.
      rewrite sub_from_skip by lia.
      replace (c :: s) with (firstn (S n) (c :: s) ++ skipn n s)
        by (change (skipn n s) with (skipn (S n) (c :: s)); apply firstn_skipn).
      apply rw_match.
      * discriminate.
      * change (skipn n s) with (skipn (S n) (c :: s)).
        rewrite firstn_skipn, length_firstn, Nat.min_l by (simpl; lia). exact Hm.
      * exact HL.
      * apply (IH (List.length (skipn n s))); [| reflexivity].
        subst k. rewrite length_skipn. simpl. lia.
    + apply rw_keep; [exact Hm |].
      apply (IH (List.length s)); [subst k; simpl; lia | reflexivity].
Qed.

(** [sub] at the match [search] finds: the text before it is kept, the
    match is replaced, and the text after it is rewritten in turn. *)
Lemma sub_search p repl :
  never_empty p ->
  forall s m, Re.search p s = Some m ->
    Re.sub p repl s = Re.before m ++ repl ++ Re.sub p repl (Re.after m).
Proof.
  intros Hne. unfold Re.sub.
  induction s as [| c s IH]; intros m H; cbn [Re.search] in H.
  - destruct (Re.match_len p []) as [n |] eqn:Hm; [| discriminate H].
    destruct (match_len_sound p _ _ Hm) as [Hn _]. simpl in Hn.
    assert (n = 0%nat) by lia. subst n. elim (Hne _ Hm).
  - cbn [Re.sub_from].
    destruct (Re.match_len p (c :: s)) as [[| n] |] eqn:Hm.
    + elim (Hne _ Hm).
    + injection H as <-. cbn [Re.before Re.after app skipn].
      destruct (match_len_sound p _ _ Hm) as [Hn _]. simpl in Hn.
      rewrite sub_from_skip by lia. reflexivity.
    + destruct (Re.search p s) as [m' |] eqn:Hs; [| discriminate H].
      injection H as <-. cbn [Re.before Re.after app].
      rewrite (IH m' eq_refl). reflexivity.
Qed.

(** * The evaluator *)

Section Evaluator.

Context {S : Shapely} {L : Libm}.

(** C3, as the code has it.  Single-modifier evaluation returns 1.0
    below [min_layer], 1.0 for a 2D modifier whose polygon does not
    contain the XY projection, 1.0 for a 3D modifier whose centroid is
    farther than [r_max] in 3D, the distance being [r] when its squares
    do not overflow.  Otherwise, when [r / r_max] is [q] ([r_max] not
    being zero) and [**] returns [n] for [min(q, 1)] and
    [gradient_exponent], it returns [center - (center - edge) * n]. *)
Theorem single_modifier_evaluation (x y z : float) (mod_ : modifier) :
  (ltb z (min_layer mod_) = true ->
   compute_multiplier_for_modifier x y z mod_ = Ok one) /\
  (forall polygon c,
      modifier_shape mod_ = Shape2D polygon c ->
      contains polygon (x, y) = false ->
      compute_multiplier_for_modifier x y z mod_ = Ok one) /\
  (forall cx cy cz r,
      modifier_shape mod_ = Shape3D (cx, cy, cz) ->
      dist3d x y z cx cy cz = Ok r ->
      ltb (r_max mod_) r = true ->
      compute_multiplier_for_modifier x y z mod_ = Ok one) /\
  (forall r q n,
      ltb z (min_layer mod_) = false ->
      (exists polygon c,
          modifier_shape mod_ = Shape2D polygon c /\
          contains polygon (x, y) = true /\ r = distance (x, y) c) \/
      (exists cx cy cz,
          modifier_shape mod_ = Shape3D (cx, cy, cz) /\
          dist3d x y z cx cy cz = Ok r /\ ltb (r_max mod_) r = false) ->
      div r (r_max mod_) = Ok q ->
      pow (min q one) (gradient_exponent mod_) = Ok n ->
      compute_multiplier_for_modifier x y z mod_ =
        Ok (sub (center_multiplier mod_)
                (mul (sub (center_multiplier mod_) (edge_multiplier mod_)) n))).
Proof.
  unfold compute_multiplier_for_modifier.
  split; [| split; [| split]].
  - intros ->. reflexivity.
  - intros polygon c -> Hc. rewrite Hc.
    destruct (ltb z (min_layer mod_)); reflexivity.
  - intros cx cy cz r -> Hr Hgt. rewrite Hr. cbn [bind]. rewrite Hgt.
    destruct (ltb z (min_layer mod_)); reflexivity.
  - intros r q n Hz Hcase Hq Hpow.
    assert (Hg : gradient r (r_max mod_) mod_ =
                 Ok (sub (center_multiplier mod_)
                         (mul (sub (center_multiplier mod_) (edge_multiplier mod_))
                              n))).
    { unfold gradient. rewrite Hq. cbn [bind]. rewrite Hpow. reflexivity. }
    destruct Hcase as [(polygon & c & -> & Hc & ->) | (cx & cy & cz & -> & Hr & Hle)];
      rewrite Hz.
    + rewrite Hc. exact Hg.
    + rewrite Hr. cbn [bind]. rewrite Hle. exact Hg.
Qed.

(** *** Composition over the modifiers *)


Lemma multiply_all_neutral (x y z : float) (mods : list modifier) :
  Forall (fun mod_ => compute_multiplier_for_modifier x y z mod_ = Ok one) mods ->
  forall overall, valid overall = true ->
                  multiply_all x y z mods overall = Ok overall.
Proof.
  induction 1 as [| mod_ mods Hm _ IH]; intros overall Hv; cbn [multiply_all].
  - reflexivity.
  - rewrite Hm. cbn [bind]. rewrite (mul_one_r _ Hv). apply IH, Hv.
Qed.


(** *** Averaging along a move *)

Lemma sample_all_collect (modifiers : list modifier) (start end_ : point)
    (z : float) (n : nat) (indices : list nat) :
  forall total,
    sample_all modifiers start end_ z n indices total =
      (ms <- collect (map (multiplier_at_sample modifiers start end_ z n) indices) ;;
       Ok (fold_left add ms total)).
Proof.
  induction indices as [| i indices IH]; intros total;
    cbn [sample_all map collect bind].
  - reflexivity.
  - unfold multiplier_at_sample at 1.
    destruct (div (add (of_Z (Z.of_nat i)) half) (of_Z (Z.of_nat n))) as [frac | e];
      cbn [bind]; [| reflexivity].
    destruct (compute_multiplier_multiple modifiers
                (fst (interpolate start end_ frac))
                (snd (interpolate start end_ frac)) z) as [m | e]; cbn [bind].
    + rewrite IH.
      destruct (collect (map (multiplier_at_sample modifiers start end_ z n) indices));
        reflexivity.
    + reflexivity.
Qed.

Lemma average_is_mean (modifiers : list modifier) (start end_ : point)
    (z : float) (n : nat) :
  compute_average_multiplier modifiers start end_ z n
    = mean_of_samples modifiers start end_ z n.
Proof.
  unfold compute_average_multiplier, mean_of_samples.
  rewrite sample_all_collect.
  destruct (collect (map (multiplier_at_sample modifiers start end_ z n) (seq 0 n)));
    reflexivity.
Qed.

(** C6.  When both ends of a move are classified alike against the
    union of the active 2D polygons, or no 2D modifier is active, the
    segment multiplier is the arithmetic mean of the point multiplier
    at the fractions [(i + 0.5) / samples], [i] from 0 to
    [samples - 1], at the same [z]. *)
Theorem segment_multiplier_is_mean (modifiers : list modifier)
    (start end_ : point) (z : float) (samples : nat) :
  let polys := applicable_polys modifiers z in
  polys = [] \/
  contains (unary_union polys) (fst start, snd start)
    = contains (unary_union polys) (fst end_, snd end_) ->
  compute_effective_multiplier modifiers start end_ z samples
    = mean_of_samples modifiers start end_ z samples.
Proof.
  intros polys H. unfold compute_effective_multiplier, classify.
  fold polys. rewrite <- average_is_mean.
  destruct H as [-> | H].
  - reflexivity.
  - destruct polys as [| g polys']; [reflexivity |].
    rewrite H. rewrite Bool.eqb_reflx. reflexivity.
Qed.

(** C2.  A move whose ends are classified differently against the
    union of the active 2D polygons has multiplier exactly 1.0,
    whatever the sample count; with no active 2D modifier both ends
    count as inside and the average is taken. *)
Theorem boundary_crossing_is_neutral (modifiers : list modifier)
    (start end_ : point) (z : float) (samples : nat) :
  let polys := applicable_polys modifiers z in
  (polys <> [] ->
   contains (unary_union polys) (fst start, snd start)
     <> contains (unary_union polys) (fst end_, snd end_) ->
   compute_effective_multiplier modifiers start end_ z samples = Ok one) /\
  (polys = [] ->
   classify modifiers start end_ z = (true, true) /\
   compute_effective_multiplier modifiers start end_ z samples
     = compute_average_multiplier modifiers start end_ z samples).
Proof.
  intros polys. unfold compute_effective_multiplier, classify. fold polys.
  split.
  - intros Hne Hdiff. destruct polys as [| g polys']; [congruence |].
    destruct (contains (unary_union (g :: polys')) (fst start, snd start)),
      (contains (unary_union (g :: polys')) (fst end_, snd end_));
      try reflexivity; congruence.
  - intros ->. split; reflexivity.
Qed.

(** C5.  The division by [r_max] has no guard: a modifier whose
    [r_max] is zero raises [ZeroDivisionError] at every point that
    reaches the gradient. *)
Theorem zero_radius_divides_by_zero (x y z : float) (mod_ : modifier) :
  eqb (r_max mod_) zero = true ->
  ltb z (min_layer mod_) = false ->
  (exists polygon c,
      modifier_shape mod_ = Shape2D polygon c /\ contains polygon (x, y) = true) \/
  (exists cx cy cz r,
      modifier_shape mod_ = Shape3D (cx, cy, cz) /\
      dist3d x y z cx cy cz = Ok r /\ ltb (r_max mod_) r = false) ->
  compute_multiplier_for_modifier x y z mod_ = Raise ZeroDivisionError.
Proof.
  intros Hr Hz H. unfold compute_multiplier_for_modifier. rewrite Hz.
  destruct H as [(polygon & c & -> & Hc) | (cx & cy & cz & r & -> & Hd & Hle)].
  - rewrite Hc. cbn [negb]. unfold gradient, div. rewrite Hr. reflexivity.
  - rewrite Hd. cbn [bind]. rewrite Hle. unfold gradient, div. rewrite Hr.
    reflexivity.
Qed.

End Evaluator.

(** * The rewrite loop *)

Lemma startswith_G1_not_G92 line :
  startswith (txt "G1") line = true -> startswith (txt "G92") line = false.
Proof.
  destruct line as [| a [| b line]];
    cbn [txt list_ascii_of_string startswith]; unfold ascii_eqb;
    intros H; try discriminate H.
  - rewrite andb_false_r in H. discriminate H.
  - apply andb_true_iff in H. destruct H as [_ H].
    apply andb_true_iff in H. destruct H as [H _].
    apply Ascii.eqb_eq in H. subst b. rewrite andb_false_r. reflexivity.
Qed.

Lemma contains_char_app c u v :
  contains_char c (u ++ v) = contains_char c u || contains_char c v.
Proof.
  induction u as [| d u IH]; cbn [app contains_char]; [reflexivity |].
  rewrite IH, orb_assoc. reflexivity.
Qed.

Lemma lang_letter c0 p w :
  lang (Re.One (Re.Chr c0) :: p) w -> exists w', w = c0 :: w' /\ lang p w'.
Proof.
  intros (c & w' & -> & Hc & HL). apply accepts_chr in Hc. subst c. eauto.
Qed.

Lemma search_contains c0 p line m :
  Re.search (Re.One (Re.Chr c0) :: p) line = Some m ->
  contains_char c0 line = true.
Proof.
  intros H. destruct (search_spec _ _ _ H) as (E & _ & HL & _).
  destruct (lang_letter _ _ _ HL) as (w' & Ew & _).
  rewrite E, Ew, contains_char_app. cbn [app contains_char].
  unfold ascii_eqb. rewrite Ascii.eqb_refl, orb_true_r. reflexivity.
Qed.

(** The number after the letter always converts. *)
Lemma group1_converts c0 line m :
  Re.search (Re.One (Re.Chr c0) :: number_items) line = Some m ->
  exists x, of_text (Re.group1 m) = Ok x.
Proof.
  intros H. destruct (search_spec _ _ _ H) as (_ & _ & HL & _).
  destruct (lang_letter _ _ _ HL) as (w' & Ew & Hw).
  unfold Re.group1. rewrite Ew. apply number_converts, Hw.
Qed.

Lemma scan_z_total st line : exists z, scan_z st line = Ok z.
Proof.
  unfold scan_z. destruct (Re.search pattern_z line) as [m |] eqn:H.
  - exact (group1_converts _ _ _ H).
  - eauto.
Qed.

Lemma locate_total st line :
  exists pl, locate st (Re.search pattern_x line) (Re.search pattern_y line) = Ok pl.
Proof.
  unfold locate.
  destruct (Re.search pattern_x line) as [xm |] eqn:Hx;
    [destruct (Re.search pattern_y line) as [ym |] eqn:Hy |].
  - destruct (group1_converts _ _ _ Hx) as [x ->].
    destruct (group1_converts _ _ _ Hy) as [y ->]. cbn [bind]. eauto.
  - destruct (last_x st), (last_y st); eauto.
  - destruct (last_x st), (last_y st); eauto.
Qed.

Section Rewriter.

Context {S : Shapely} {L : Libm}.
Variable modifiers : list modifier.

Lemma process_line_reset st line tok v :
  startswith (txt "G92") line = true ->
  Re.search pattern_e line = Some tok ->
  of_text (Re.group1 tok) = Ok v ->
  process_line modifiers st line = Ok (with_reset st v, line).
Proof.
  intros Hp Hs Hv. unfold process_line.
  rewrite Hp, (search_contains _ _ _ _ Hs), Hs, Hv. reflexivity.
Qed.

Lemma process_line_move st line tok cur z pl m :
  qualifies line = true ->
  Re.search pattern_e line = Some tok ->
  of_text (Re.group1 tok) = Ok cur ->
  scan_z st line = Ok z ->
  locate st (Re.search pattern_x line) (Re.search pattern_y line) = Ok pl ->
  move_multiplier modifiers (start_pt pl) (end_pt pl) z = Ok m ->
  process_line modifiers st line
    = Ok (emit_move st line cur (sub cur (last_E st)) pl z m).
Proof.
  intros Hq Hs Hv Hz Hl Hm. unfold process_line.
  pose proof Hq as Hq'. unfold qualifies in Hq'.
  apply andb_true_iff in Hq'. destruct Hq' as [Hg _].
  rewrite (startswith_G1_not_G92 _ Hg). cbn [andb].
  rewrite Hz. cbn [bind]. unfold qualifies in Hq. rewrite Hq, Hs, Hv.
  cbn [bind]. rewrite Hl. cbn [bind]. rewrite Hm. reflexivity.
Qed.

(** Every way [process_line] returns. *)
Lemma process_line_inv st line st' out :
  process_line modifiers st line = Ok (st', out) ->
  (out = line /\ positions_3d st' = positions_3d st /\
   last_x st' = last_x st /\ last_y st' = last_y st /\
   (qualifies line = false \/ Re.search pattern_e line = None))
  \/
  (qualifies line = true /\
   exists tok cur z pl m,
     Re.search pattern_e line = Some tok /\
     of_text (Re.group1 tok) = Ok cur /\
     scan_z st line = Ok z /\
     locate st (Re.search pattern_x line) (Re.search pattern_y line) = Ok pl /\
     move_multiplier modifiers (start_pt pl) (end_pt pl) z = Ok m /\
     (st', out) = emit_move st line cur (sub cur (last_E st)) pl z m).
Proof.
  unfold process_line. intros H.
  destruct (startswith (txt "G92") line && contains_char "E" line) eqn:Hr.
  - left. assert (Hq : qualifies line = false).
    { unfold qualifies. destruct (startswith (txt "G1") line) eqn:Hg; [| reflexivity].
      rewrite (startswith_G1_not_G92 _ Hg) in Hr. discriminate Hr. }
    destruct (Re.search pattern_e line) as [tok |].
    + destruct (of_text (Re.group1 tok)) as [v | e]; [| discriminate H].
      injection H as <- <-. cbn. auto 6.
    + injection H as <- <-. auto 6.
  - destruct (scan_z st line) as [z | e] eqn:Hz; [| discriminate H].
    cbn [bind] in H. fold (qualifies line) in H.
    destruct (qualifies line) eqn:Hq.
    + destruct (Re.search pattern_e line) as [tok |] eqn:Hs.
      * right. split; [reflexivity |].
        destruct (of_text (Re.group1 tok)) as [cur | e] eqn:Hc; [| discriminate H].
        cbn [bind] in H.
        destruct (locate st (Re.search pattern_x line) (Re.search pattern_y line))
          as [pl | e] eqn:Hl; [| discriminate H].
        cbn [bind] in H.
        destruct (move_multiplier modifiers (start_pt pl) (end_pt pl) z)
          as [m | e] eqn:Hm; [| discriminate H].
        cbn [bind] in H. injection H as <- <-.
        exists tok, cur, z, pl, m. repeat (split; [reflexivity || assumption |]).
        reflexivity.
      * left. injection H as <- <-. cbn. auto 6.
    + left. injection H as <- <-. cbn. auto 6.
Qed.

End Rewriter.

(** ** The format of the rewritten field *)

Lemma digit_char_is_digit d : 0 <= d < 10 -> is_digit (digit_char d) = true.
Proof.
  intros H.
  assert (E : d = 0 \/ d = 1 \/ d = 2 \/ d = 3 \/ d = 4 \/
              d = 5 \/ d = 6 \/ d = 7 \/ d = 8 \/ d = 9) by lia.
  repeat (destruct E as [-> | E]; [reflexivity |]). subst d. reflexivity.
Qed.

Lemma fixed5_five_decimals s r : five_decimals (fixed5 s r).
Proof.
  unfold five_decimals, fixed5, frac5. cbn [map].
  set (n := r mod 100000).
  exists (sign_text s ++ dec (r / 100000)).
  do 5 eexists. split.
  - rewrite <- app_assoc. reflexivity.
  - cbn [forallb].
    rewrite !digit_char_is_digit by (apply Z.mod_pos_bound; lia). reflexivity.
Qed.

Lemma format_5f_five_decimals v :
  is_finite v = true -> five_decimals (format_5f v).
Proof.
  destruct v as [s | s | | s m e]; cbn [is_finite format_5f];
    intros H; try discriminate H; apply fixed5_five_decimals.
Qed.

Lemma pattern_e_never_empty : never_empty pattern_e.
Proof. apply one_never_empty. Qed.

Section Stream.

Context {S : Shapely} {L : Libm}.
Variable modifiers : list modifier.

Lemma process_line_line_rewritten st line st' out :
  process_line modifiers st line = Ok (st', out) ->
  line_rewritten (new_E st') line out.
Proof.
  intros H. unfold line_rewritten. cbv zeta.
  destruct (process_line_inv modifiers _ _ _ _ H)
    as [(-> & _ & _ & _ & Hno) |
        (Hq & tok & cur & z & pl & m & Hs & _ & _ & _ & _ & E)].
  - split; [| reflexivity].
    intros tok Hq Hs. destruct Hno as [Hno | Hno]; congruence.
  - unfold emit_move in E. injection E as -> ->. cbn [new_E]. split.
    + intros tok' _ Hs'. split; [| split].
      * apply sub_search; [apply pattern_e_never_empty | exact Hs'].
      * apply sub_rewritten, pattern_e_never_empty.
      * apply format_5f_five_decimals.
    + intros [Hno | Hno]; congruence.
Qed.

Lemma run_length st lines :
  (List.length (written (run modifiers st lines)) <= List.length lines)%nat /\
  (raised (run modifiers st lines) = None ->
   List.length (written (run modifiers st lines)) = List.length lines) /\
  (raised (run modifiers st lines) <> None ->
   (List.length (written (run modifiers st lines)) < List.length lines)%nat).
Proof.
  revert st. induction lines as [| line lines IH]; intros st; cbn [run].
  - cbn. split; [lia | split; [reflexivity | congruence]].
  - destruct (process_line modifiers st line) as [[st' out] | e] eqn:H.
    + cbn [written raised List.length].
      destruct (IH st') as (IH1 & IH2 & IH3).
      split; [lia | split].
      * intros Hn. rewrite (IH2 Hn). reflexivity.
      * intros Hn. apply IH3 in Hn. lia.
    + cbn. split; [lia | split; [congruence | lia]].
Qed.

(** The line written at index [k] is the one [process_line] writes for
    the line read at index [k], from the state the lines before it
    left. *)
Lemma run_nth lines :
  forall st k line out,
    nth_error lines k = Some line ->
    nth_error (written (run modifiers st lines)) k = Some out ->
    raised (run modifiers st (firstn k lines)) = None /\
    raised (run modifiers st (firstn (Datatypes.S k) lines)) = None /\
    process_line modifiers (final (run modifiers st (firstn k lines))) line
      = Ok (final (run modifiers st (firstn (Datatypes.S k) lines)), out).
Proof.
  induction lines as [| line0 lines IH]; intros st k line out Hl Ho.
  - destruct k; discriminate Hl.
  - cbn [run] in Ho.
    destruct (process_line modifiers st line0) as [[st' out0] | e] eqn:H.
    + cbn [written] in Ho. destruct k as [| k].
      * cbn in Hl, Ho. injection Hl as <-. injection Ho as <-.
        cbn [firstn run]. rewrite H. cbn [final raised]. auto.
      * cbn [nth_error] in Hl, Ho.
        change (firstn (Datatypes.S (Datatypes.S k)) (line0 :: lines))
          with (line0 :: firstn (Datatypes.S k) lines).
        change (firstn (Datatypes.S k) (line0 :: lines)) with (line0 :: firstn k lines).
        cbn [run]. rewrite H. cbn [final raised].
        exact (IH st' k line out Hl Ho).
    + cbn [written] in Ho. destruct k; discriminate Ho.
Qed.

End Stream.

(** * The rewrite loop, line by line *)

Section Accumulator.

Context {S : Shapely} {L : Libm}.
Variable modifiers : list modifier.

(** C1.  A [G92] line with an E field sets [last_E] and [new_E] to the
    reset value and is written unchanged; an extrusion move adds
    [delta * multiplier] to [new_E], [delta] being the line's raw E
    minus [last_E]; so a reset to 12.0 and then a move to raw 14.0
    under multiplier 1.5 writes [E15.00000]. *)
Theorem accumulator_delta_law (st : state) (line : text) :
  (forall tok v,
      startswith (txt "G92") line = true ->
      Re.search pattern_e line = Some tok ->
      of_text (Re.group1 tok) = Ok v ->
      exists st',
        process_line modifiers st line = Ok (st', line) /\
        last_E st' = v /\ new_E st' = v) /\
  (forall tok cur z pl m,
      qualifies line = true ->
      Re.search pattern_e line = Some tok ->
      of_text (Re.group1 tok) = Ok cur ->
      scan_z st line = Ok z ->
      locate st (Re.search pattern_x line) (Re.search pattern_y line) = Ok pl ->
      move_multiplier modifiers (start_pt pl) (end_pt pl) z = Ok m ->
      exists st',
        process_line modifiers st line
          = Ok (st', Re.sub pattern_e ("E"%char :: format_5f (new_E st')) line) /\
        new_E st' = add (new_E st) (mul (sub cur (last_E st)) m) /\
        last_E st' = cur) /\
  (forall tok z pl,
      qualifies line = true ->
      Re.search pattern_e line = Some tok ->
      Re.group1 tok = txt "14.0" ->
      scan_z st line = Ok z ->
      locate st (Re.search pattern_x line) (Re.search pattern_y line) = Ok pl ->
      move_multiplier modifiers (start_pt pl) (end_pt pl) z
        = Ok (Reference.fl "1.5") ->
      written (run modifiers st [txt "G92 E12.0"; line])
        = [txt "G92 E12.0"; Re.sub pattern_e (txt "E15.00000") line]).
Proof.
  split; [| split].
  - intros tok v Hp Hs Hv. exists (with_reset st v).
    rewrite (process_line_reset modifiers st line tok v Hp Hs Hv). auto.
  - intros tok cur z pl m Hq Hs Hc Hz Hl Hm.
    rewrite (process_line_move modifiers st line tok cur z pl m Hq Hs Hc Hz Hl Hm).
    exists (fst (emit_move st line cur (sub cur (last_E st)) pl z m)).
    split; [reflexivity |]. split; reflexivity.
  - intros tok z pl Hq Hs Hg Hz Hl Hm. cbn [run].
    replace (process_line modifiers st (txt "G92 E12.0"))
      with (Ok (with_reset st (Reference.fl "12.0"), txt "G92 E12.0"))
      by (symmetry; apply process_line_reset with
            (tok := {| Re.before := txt "G92 "; Re.matched := txt "E12.0";
                       Re.after := [] |}); reflexivity).
    assert (Hc : of_text (Re.group1 tok) = Ok (Reference.fl "14.0"))
      by (rewrite Hg; reflexivity).
    rewrite (process_line_move modifiers (with_reset st (Reference.fl "12.0"))
               line tok _ z pl _ Hq Hs Hc Hz Hl Hm).
    reflexivity.
Qed.

End Accumulator.


Section Lines.

Context {S : Shapely} {L : Libm}.
Variable modifiers : list modifier.

(** C4, as the code has it.  The lines written are, in order, those
    for the lines read up to the first exception, one for every line
    read when none is raised.  The line written for a line of the
    extrusion branch in which an E number is found is that line with
    every match of the E-number pattern (the first one, and any later
    one, in a comment as well as in the extrusion field) replaced by
    [E] and the accumulator after that line (the lines up to it having
    raised nothing) in [.5f], which for a
    finite accumulator ends in a point and five digits; the characters
    outside the matches are kept.  Any other line is written as it
    was read. *)
Theorem every_E_number_is_rewritten (st : state) (lines : list text) :
  let o := run modifiers st lines in
  (List.length (written o) <= List.length lines)%nat /\
  (raised o = None -> List.length (written o) = List.length lines) /\
  (forall k line out,
      nth_error lines k = Some line ->
      nth_error (written o) k = Some out ->
      let v := new_E (final (run modifiers st (firstn (Datatypes.S k) lines))) in
      let field := "E"%char :: format_5f v in
      raised (run modifiers st (firstn (Datatypes.S k) lines)) = None /\
      (qualifies line = false \/ Re.search pattern_e line = None -> out = line) /\
      (forall tok,
          qualifies line = true ->
          Re.search pattern_e line = Some tok ->
          out = Re.sub pattern_e field line /\
          out = Re.before tok ++ field ++ Re.sub pattern_e field (Re.after tok) /\
          Rewritten pattern_e field line out /\
          (is_finite v = true -> five_decimals (format_5f v)))).
Proof.
  cbv zeta. destruct (run_length modifiers st lines) as (H1 & H2 & _).
  split; [exact H1 | split; [exact H2 |]].
  intros k line out Hl Ho.
  destruct (run_nth modifiers lines st k line out Hl Ho) as (_ & Hr & H).
  destruct (process_line_line_rewritten modifiers _ _ _ _ H) as [Hmove Hkeep].
  split; [exact Hr |]. split; [exact Hkeep |].
  intros tok Hq Hs. destruct (Hmove tok Hq Hs) as (E1 & E2 & E3).
  split; [| split; [exact E1 | split; [exact E2 | exact E3]]].
  rewrite E1. symmetry.
  apply sub_search; [apply pattern_e_never_empty | exact Hs].
Qed.

End Lines.

Section NoModifiers.

Context {S : Shapely} {L : Libm}.

Lemma move_multiplier_nil start end_ z : move_multiplier [] start end_ z = Ok one.
Proof.
  unfold move_multiplier.
  assert (E : compute_effective_multiplier [] start end_ z 5 = Ok one)
    by (vm_compute; reflexivity).
  rewrite E. destruct (ltb (line_length start end_) epsilon); reflexivity.
Qed.

Lemma process_line_nil_total st line :
  exists st' out, process_line [] st line = Ok (st', out).
Proof.
  unfold process_line.
  destruct (startswith (txt "G92") line && contains_char "E" line).
  - destruct (Re.search pattern_e line) as [tok |] eqn:Hs;
      [| do 2 eexists; reflexivity].
    destruct (group1_converts _ _ _ Hs) as [v ->]. cbn [bind].
    do 2 eexists; reflexivity.
  - destruct (scan_z_total st line) as [z ->]. cbn [bind].
    destruct (startswith (txt "G1") line && contains_char "E" line);
      [| do 2 eexists; reflexivity].
    destruct (Re.search pattern_e line) as [tok |] eqn:Hs;
      [| do 2 eexists; reflexivity].
    destruct (group1_converts _ _ _ Hs) as [cur ->]. cbn [bind].
    destruct (locate_total st line) as [pl ->]. cbn [bind].
    rewrite move_multiplier_nil. cbn [bind].
    unfold emit_move. do 2 eexists; reflexivity.
Qed.

Lemma run_nil_total lines :
  forall st, raised (run [] st lines) = None.
Proof.
  induction lines as [| line lines IH]; intros st; cbn [run].
  - reflexivity.
  - destruct (process_line_nil_total st line) as (st' & out & ->).
    cbn [raised]. apply IH.
Qed.

(** C9, as the code has it.  With no modifier loaded every multiplier
    is exactly 1.0, no line raises, and one line is written per line
    read; a line outside the extrusion branch, or with no E number,
    is written unchanged; on a line of the extrusion branch every E
    number is replaced by the accumulator, which has grown by the
    raw delta, printed in [.5f]: with five digits after the point when
    it is finite, as [inf], [-inf] or [nan] when it is not. *)
Theorem no_modifiers_rewrite (st : state) (lines : list text) :
  (forall start end_ z, move_multiplier [] start end_ z = Ok one) /\
  raised (run [] st lines) = None /\
  List.length (written (run [] st lines)) = List.length lines /\
  (forall k line out,
      nth_error lines k = Some line ->
      nth_error (written (run [] st lines)) k = Some out ->
      line_rewritten (new_E (final (run [] st (firstn (Datatypes.S k) lines)))) line out) /\
  (forall st0 line,
      qualifies line = false \/ Re.search pattern_e line = None ->
      exists st', process_line [] st0 line = Ok (st', line)) /\
  (forall st0 line tok,
      qualifies line = true ->
      Re.search pattern_e line = Some tok ->
      exists cur st',
        let field := "E"%char :: format_5f (new_E st') in
        of_text (Re.group1 tok) = Ok cur /\
        process_line [] st0 line = Ok (st', Re.sub pattern_e field line) /\
        new_E st' = add (new_E st0) (mul (sub cur (last_E st0)) one) /\
        (valid (sub cur (last_E st0)) = true ->
         new_E st' = add (new_E st0) (sub cur (last_E st0))) /\
        Rewritten pattern_e field line (Re.sub pattern_e field line) /\
        Re.sub pattern_e field line
          = Re.before tok ++ field ++ Re.sub pattern_e field (Re.after tok) /\
        (is_finite (new_E st') = true -> five_decimals (format_5f (new_E st'))) /\
        (is_finite (new_E st') = false ->
         format_5f (new_E st') = txt "inf" \/
         format_5f (new_E st') = txt "-inf" \/
         format_5f (new_E st') = txt "nan")).
Proof.
  split; [exact move_multiplier_nil |].
  split; [apply run_nil_total |].
  split; [apply (run_length [] st lines), run_nil_total |].
  split; [| split].
  - intros k line out Hl Ho.
    destruct (run_nth [] lines st k line out Hl Ho) as (_ & _ & H).
    exact (process_line_line_rewritten [] _ _ _ _ H).
  - intros st0 line Hno.
    destruct (process_line_nil_total st0 line) as (st' & out & H).
    exists st'. rewrite H.
    destruct (process_line_inv [] _ _ _ _ H)
      as [(-> & _) | (Hq & tok & cur & z & pl & m & Hs & _)].
    + reflexivity.
    + destruct Hno as [Hno | Hno]; congruence.
  - intros st0 line tok Hq Hs.
    destruct (group1_converts _ _ _ Hs) as [cur Hc].
    destruct (scan_z_total st0 line) as [z Hz].
    destruct (locate_total st0 line) as [pl Hl].
    exists cur, (fst (emit_move st0 line cur (sub cur (last_E st0)) pl z one)).
    cbv zeta. split; [exact Hc |].
    rewrite (process_line_move [] st0 line tok cur z pl one Hq Hs Hc Hz Hl
               (move_multiplier_nil _ _ _)).
    split; [reflexivity |]. split; [reflexivity |]. split.
    { intros Hv. cbn [emit_move fst new_E]. rewrite (mul_one_r _ Hv). reflexivity. }
    split; [apply sub_rewritten, pattern_e_never_empty |].
    split; [apply sub_search; [apply pattern_e_never_empty | exact Hs] |].
    split; [apply format_5f_five_decimals |].
    destruct (new_E _) as [sg | [|] | | sg m e]; cbn [is_finite format_5f];
      intros Hf; try discriminate Hf; auto.
Qed.

End NoModifiers.

Lemma snoc_neq {A : Type} (l : list A) (x : A) : l ++ [x] <> l.
Proof.
  intros H. apply (f_equal (@List.length A)) in H.
  rewrite length_app in H. simpl in H. lia.
Qed.

Section Moves.

Context {S : Shapely} {L : Libm}.
Variable modifiers : list modifier.

(** C8, as the code has it.  On an extrusion move whose line has both
    an X and a Y number, the move ends at them, [last_x] and [last_y]
    become them, and the move starts at the previous last known
    position, or at its own end when there is none.  When the X or the
    Y number is missing, the other is not used: the move starts and
    ends at the last known position, or at (0, 0) when there is none,
    and [last_x] and [last_y] stay as they were. *)
Theorem move_endpoints (st : state) (line : text) (st' : state) (out : text) :
  process_line modifiers st line = Ok (st', out) ->
  qualifies line = true ->
  Re.search pattern_e line <> None ->
  exists z m start end_,
    scan_z st line = Ok z /\
    move_multiplier modifiers start end_ z = Ok m /\
    positions_3d st' = positions_3d st ++ [(fst end_, snd end_, z, m)] /\
    (forall xm ym,
        Re.search pattern_x line = Some xm ->
        Re.search pattern_y line = Some ym ->
        of_text (Re.group1 xm) = Ok (fst end_) /\
        of_text (Re.group1 ym) = Ok (snd end_) /\
        last_x st' = Some (fst end_) /\ last_y st' = Some (snd end_) /\
        start = match last_x st, last_y st with
                | Some lx, Some ly => (lx, ly)
                | _, _ => end_
                end) /\
    (Re.search pattern_x line = None \/ Re.search pattern_y line = None ->
     last_x st' = last_x st /\ last_y st' = last_y st /\
     start = end_ /\
     end_ = match last_x st, last_y st with
            | Some lx, Some ly => (lx, ly)
            | _, _ => (zero, zero)
            end).
Proof.
  intros H Hq Hne.
  destruct (process_line_inv modifiers _ _ _ _ H)
    as [(_ & _ & _ & _ & [Hno | Hno]) |
        (_ & tok & cur & z & pl & m & Hs & Hc & Hz & Hl & Hm & E)];
    try congruence.
  unfold emit_move in E. injection E as -> _.
  exists z, m, (start_pt pl), (end_pt pl). cbn [positions_3d last_x last_y].
  split; [exact Hz | split; [exact Hm | split; [reflexivity |]]].
  unfold locate in Hl. split.
  - intros xm ym Hx Hy. rewrite Hx, Hy in Hl.
    destruct (of_text (Re.group1 xm)) as [x | e]; [| discriminate Hl].
    destruct (of_text (Re.group1 ym)) as [y | e]; [| discriminate Hl].
    cbn [bind] in Hl. injection Hl as <-. cbn.
    destruct (last_x st), (last_y st); auto.
  - intros Hnone.
    assert (Hl' : match last_x st, last_y st with
                  | Some lx, Some ly =>
                      Ok {| start_pt := (lx, ly); end_pt := (lx, ly);
                            next_x := last_x st; next_y := last_y st |}
                  | _, _ =>
                      Ok {| start_pt := (zero, zero); end_pt := (zero, zero);
                            next_x := last_x st; next_y := last_y st |}
                  end = Ok pl).
    { destruct Hnone as [Hn | Hn]; rewrite Hn in Hl;
        [| destruct (Re.search pattern_x line)]; exact Hl. }
    destruct (last_x st), (last_y st); injection Hl' as <-; cbn; auto.
Qed.

(** C10, as the code has it.  A line is handled as an extrusion move
    exactly when it starts with the two characters [G1], contains an
    [E], and an E number is found in it (with none it is written
    unchanged and nothing is recorded): so a [G10] or [G17] line is
    handled too.  The raw value is the number
    of the leftmost E-number match in the whole line, comment
    included. *)
Theorem extrusion_line_classification (st : state) (line : text)
    (st' : state) (out : text) :
  process_line modifiers st line = Ok (st', out) ->
  (positions_3d st' <> positions_3d st <->
   startswith (txt "G1") line = true /\ contains_char "E" line = true /\
   Re.search pattern_e line <> None) /\
  (startswith (txt "G1") line = false \/ contains_char "E" line = false \/
   Re.search pattern_e line = None -> out = line) /\
  (forall rest,
      startswith (txt "G1") (txt "G10" ++ rest) = true /\
      startswith (txt "G1") (txt "G17" ++ rest) = true) /\
  (forall tok,
      startswith (txt "G1") line = true ->
      contains_char "E" line = true ->
      Re.search pattern_e line = Some tok ->
      of_text (Re.group1 tok) = Ok (last_E st') /\
      line = Re.before tok ++ Re.matched tok ++ Re.after tok /\
      (exists number,
          Re.matched tok = "E"%char :: number /\ Re.group1 tok = number /\
          lang number_items number) /\
      (forall a b,
          Re.before tok = a ++ b -> b <> [] ->
          Re.match_len pattern_e (b ++ Re.matched tok ++ Re.after tok) = None)).
Proof.
  intros H.
  destruct (process_line_inv modifiers _ _ _ _ H)
    as [(Hout & Hpos & _ & _ & Hno) |
        (Hq & tok & cur & z & pl & m & Hs & Hc & Hz & Hl & Hm & E)].
  - assert (Hno' : ~ (startswith (txt "G1") line = true /\
                      contains_char "E" line = true /\
                      Re.search pattern_e line <> None)).
    { intros (Hg & He & Hs). destruct Hno as [Hno | Hno]; [| congruence].
      unfold qualifies in Hno. rewrite Hg, He in Hno. discriminate Hno. }
    split; [| split; [| split]].
    + split; [congruence | tauto].
    + intros _. exact Hout.
    + intros rest. split; reflexivity.
    + intros tok Hg He Hs. exfalso. apply Hno'. repeat split; congruence.
  - unfold emit_move in E. injection E as -> ->.
    pose proof Hq as Hq'. unfold qualifies in Hq'.
    apply andb_true_iff in Hq'. destruct Hq' as [Hg He].
    split; [| split; [| split]].
    + cbn [positions_3d]. split.
      * intros _. repeat split; congruence.
      * intros _. apply snoc_neq.
    + intros [Hf | [Hf | Hf]]; congruence.
    + intros rest. split; reflexivity.
    + intros tok' _ _ Hs'. rewrite Hs in Hs'. injection Hs' as <-.
      cbn [last_E]. split; [exact Hc |].
      destruct (search_spec _ _ _ Hs) as (El & _ & HL & Hleft).
      split; [exact El |]. split; [| exact Hleft].
      destruct (lang_letter _ _ _ HL) as (number & En & Hn).
      exists number. unfold Re.group1. rewrite En. auto.
Qed.

End Moves.

(** * Further properties of the evaluator *)

(** ** Exact float steps *)

Lemma sub_self (x : float) : is_finite x = true -> sub x x = zero.
Proof.
  destruct x as [[] | [] | | s m e]; intros H; try discriminate H; try reflexivity.
  unfold sub, SFsub. rewrite Z.sub_diag. reflexivity.
Qed.

Lemma mul_zero_l (m : float) :
  is_finite m = true -> exists s, mul zero m = S754_zero s.
Proof.
  destruct m as [s | s | | s m e]; intros H; try discriminate H; cbn; eauto.
Qed.

Lemma add_zero_r (x : float) (s : bool) :
  x <> S754_zero true -> add x (S754_zero s) = x.
Proof.
  destruct x as [[] | [] | | sx m e]; destruct s; intros H;
    try reflexivity; congruence.
Qed.

Lemma sub_zero_r (sx : bool) (m : positive) (e : Z) (s : bool) :
  sub (S754_finite sx m e) (S754_zero s) = S754_finite sx m e.
Proof. reflexivity. Qed.

Lemma compare_antisym (a b : float) :
  SFcompare a b = Some Lt -> SFcompare b a = Some Gt.
Proof.
  destruct a as [sa | sa | | sa ma ea], b as [sb | sb | | sb mb eb];
    cbn; try discriminate; try (destruct sa; discriminate);
    try (destruct sb; discriminate);
    try (destruct sa, sb; (discriminate || reflexivity)).
  assert (A : Pos.compare_cont Eq mb ma = CompOpp (Pos.compare_cont Eq ma mb))
    by (symmetry; apply (Pos.compare_cont_antisym ma mb Eq)).
  destruct sa, sb; try discriminate; try reflexivity;
    rewrite (Z.compare_antisym ea eb), A;
    destruct (ea ?= eb); cbn; try discriminate; try reflexivity;
    destruct (Pos.compare_cont Eq ma mb); cbn; try discriminate; reflexivity.
Qed.

Lemma ltb_not_leb (a b : float) : ltb a b = true -> leb b a = false.
Proof.
  unfold ltb, leb, SFltb, SFleb. intros H.
  destruct (SFcompare a b) as [[] |] eqn:E; try discriminate H.
  rewrite (compare_antisym _ _ E). reflexivity.
Qed.

Section EvaluatorMore.

Context {S : Shapely} {L : Libm}.

Lemma gradient_constant (r norm_base : float) (mod_ : modifier)
    (s : bool) (m : positive) (e : Z) (v : float) :
  center_multiplier mod_ = S754_finite s m e ->
  edge_multiplier mod_ = S754_finite s m e ->
  gradient r norm_base mod_ = Ok v ->
  v = S754_finite s m e \/
  (v = S754_nan /\
   exists q n, div r norm_base = Ok q /\
               pow (min q one) (gradient_exponent mod_) = Ok n /\
               is_finite n = false).
Proof.
  intros Hc He. unfold gradient. rewrite Hc, He.
  destruct (div r norm_base) as [q | ex]; cbn [bind]; [| discriminate].
  destruct (pow (min q one) (gradient_exponent mod_)) as [n | ex] eqn:Hp;
    cbn [bind]; [| discriminate].
  destruct (is_finite n) eqn:Hn.
  - rewrite (sub_self (S754_finite s m e) eq_refl).
    destruct (mul_zero_l n Hn) as [s' ->]. rewrite sub_zero_r.
    intros H. injection H as <-. left. reflexivity.
  - rewrite (sub_self (S754_finite s m e) eq_refl).
    intros H. injection H as <-. right. split.
    + destruct n as [sn | sn | | sn mn en]; try discriminate Hn; reflexivity.
    + exists q, n. auto.
Qed.

(** X8.  A modifier whose centre and edge multipliers are the same
    finite non-zero number, as both entries of [modifier_defs] are,
    has no gradient: whenever its evaluation returns, the value is
    exactly 1.0 or exactly that number; or it is NaN, and then the
    [**] of this evaluation, called on [min(r / r_max, 1)] with [r]
    the distance of this point to the centroid, returned an infinity
    or a NaN. *)
Theorem constant_modifier (x y z : float) (mod_ : modifier)
    (s : bool) (m : positive) (e : Z) (v : float) :
  center_multiplier mod_ = S754_finite s m e ->
  edge_multiplier mod_ = S754_finite s m e ->
  compute_multiplier_for_modifier x y z mod_ = Ok v ->
  v = one \/ v = S754_finite s m e \/
  (v = S754_nan /\
   exists r q n,
     ((exists polygon c,
          modifier_shape mod_ = Shape2D polygon c /\ r = distance (x, y) c) \/
      (exists cx cy cz,
          modifier_shape mod_ = Shape3D (cx, cy, cz) /\
          dist3d x y z cx cy cz = Ok r)) /\
     div r (r_max mod_) = Ok q /\
     pow (min q one) (gradient_exponent mod_) = Ok n /\
     is_finite n = false).
Proof.
  intros Hc He. unfold compute_multiplier_for_modifier.
  destruct (ltb z (min_layer mod_)); [intros H; injection H as <-; auto |].
  destruct (modifier_shape mod_) as [polygon c | [[cx cy] cz]] eqn:Hshape.
  - destruct (contains polygon (x, y)); cbn [negb];
      [| intros H; injection H as <-; auto].
    intros H. right.
    destruct (gradient_constant _ _ _ _ _ _ _ Hc He H)
      as [-> | (-> & q & n & Hq & Hp & Hn)]; [left; reflexivity | right].
    split; [reflexivity |]. exists (distance (x, y) c), q, n.
    split; [left; exists polygon, c; split; reflexivity |].
    split; [exact Hq | split; [exact Hp | exact Hn]].
  - destruct (dist3d x y z cx cy cz) as [r3d | ex] eqn:Hd; cbn [bind];
      [| discriminate].
    destruct (ltb (r_max mod_) r3d); [intros H; injection H as <-; auto |].
    intros H. right.
    destruct (gradient_constant _ _ _ _ _ _ _ Hc He H)
      as [-> | (-> & q & n & Hq & Hp & Hn)]; [left; reflexivity | right].
    split; [reflexivity |]. exists r3d, q, n.
    split; [right; exists cx, cy, cz; split; [reflexivity | exact Hd] |].
    split; [exact Hq | split; [exact Hp | exact Hn]].
Qed.

Lemma applicable_polys_none (mods : list modifier) (z : float) :
  Forall (fun o => (exists c, modifier_shape o = Shape3D c) \/
                   leb (min_layer o) z = false) mods ->
  applicable_polys mods z = [].
Proof.
  induction 1 as [| o mods Ho _ IH]; cbn [applicable_polys]; [reflexivity |].
  destruct Ho as [[c ->] | Hz]; [exact IH |].
  rewrite Hz. destruct (modifier_shape o); exact IH.
Qed.

(** X10.  The boundary-crossing rule looks at 2D modifiers only: when
    every modifier is 3D, or is a 2D modifier whose [min_layer] is above
    [z], a move gets the average along it whatever it crosses. *)
Theorem volumetric_crossings_are_averaged (modifiers : list modifier)
    (start end_ : point) (z : float) (samples : nat) :
  Forall (fun o => (exists c, modifier_shape o = Shape3D c) \/
                   leb (min_layer o) z = false) modifiers ->
  compute_effective_multiplier modifiers start end_ z samples
    = compute_average_multiplier modifiers start end_ z samples.
Proof.
  intros H. unfold compute_effective_multiplier, classify.
  rewrite (applicable_polys_none modifiers z H). reflexivity.
Qed.

Lemma sample_all_ones (modifiers : list modifier) (start end_ : point)
    (z : float) (n : nat) :
  (forall x y, compute_multiplier_multiple modifiers x y z = Ok one) ->
  eqb (of_Z (Z.of_nat n)) zero = false ->
  forall indices total,
    sample_all modifiers start end_ z n indices total
      = Ok (fold_left (fun t _ => add t one) indices total).
Proof.
  intros Hone Hn. induction indices as [| i indices IH]; intros total;
    cbn [sample_all fold_left]; [reflexivity |].
  unfold div. rewrite Hn. cbn [bind]. rewrite Hone. cbn [bind]. apply IH.
Qed.

Lemma average_of_ones (modifiers : list modifier) (start end_ : point) (z : float) :
  (forall x y, compute_multiplier_multiple modifiers x y z = Ok one) ->
  compute_average_multiplier modifiers start end_ z 5 = Ok one.
Proof.
  intros Hone. unfold compute_average_multiplier.
  rewrite (sample_all_ones modifiers start end_ z 5 Hone eq_refl).
  vm_compute. reflexivity.
Qed.

(** X7.  Below the [min_layer] of every modifier nothing is scaled: the
    point multiplier is exactly 1.0 everywhere, no polygon is
    applicable, and every move, crossing or not, gets exactly 1.0. *)
Theorem below_every_min_layer (modifiers : list modifier) (z : float) :
  Forall (fun o => ltb z (min_layer o) = true) modifiers ->
  (forall x y, compute_multiplier_multiple modifiers x y z = Ok one) /\
  applicable_polys modifiers z = [] /\
  (forall start end_, move_multiplier modifiers start end_ z = Ok one).
Proof.
  intros H.
  assert (Hone : forall x y, compute_multiplier_multiple modifiers x y z = Ok one).
  { intros x y. unfold compute_multiplier_multiple.
    apply multiply_all_neutral; [| exact valid_one].
    apply Forall_impl with (2 := H). intros o Ho.
    unfold compute_multiplier_for_modifier. rewrite Ho. reflexivity. }
  assert (Hnone : applicable_polys modifiers z = []).
  { apply applicable_polys_none. apply Forall_impl with (2 := H).
    intros o Ho. right. apply ltb_not_leb, Ho. }
  split; [exact Hone | split; [exact Hnone |]].
  intros start end_. unfold move_multiplier.
  destruct (ltb (line_length start end_) epsilon); [apply Hone |].
  unfold compute_effective_multiplier, classify. rewrite Hnone. cbn.
  apply average_of_ones, Hone.
Qed.

End EvaluatorMore.

(** * Further properties of the rewrite loop *)

Section LoopMore.

Context {S : Shapely} {L : Libm}.
Variable modifiers : list modifier.

(** What a line that is no extrusion move does, whatever it carries. *)
Lemma process_line_no_move (st : state) (line : text) :
  qualifies line = false \/ Re.search pattern_e line = None ->
  exists st',
    process_line modifiers st line = Ok (st', line) /\
    last_x st' = last_x st /\ last_y st' = last_y st /\
    positions_3d st' = positions_3d st /\
    (startswith (txt "G92") line = false ->
     new_E st' = new_E st /\ last_E st' = last_E st).
Proof.
  intros Hno. unfold process_line.
  destruct (startswith (txt "G92") line && contains_char "E" line) eqn:Hr.
  - apply andb_true_iff in Hr. destruct Hr as [Hg _].
    destruct (Re.search pattern_e line) as [tok |] eqn:Hs.
    + destruct (group1_converts _ _ _ Hs) as [v ->]. cbn [bind].
      eexists. split; [reflexivity |].
      cbn [with_reset new_E last_E last_x last_y positions_3d].
      split; [reflexivity | split; [reflexivity | split; [reflexivity |]]].
      intros Hf. rewrite Hg in Hf. discriminate Hf.
    + eexists. split; [reflexivity |].
      split; [reflexivity | split; [reflexivity | split; [reflexivity |]]].
      intros Hf. rewrite Hg in Hf. discriminate Hf.
  - destruct (scan_z_total st line) as [z ->]. cbn [bind].
    fold (qualifies line).
    destruct (qualifies line) eqn:Hq.
    + destruct Hno as [Hno | Hno]; [discriminate Hno |]. rewrite Hno.
      eexists. split; [reflexivity |]. cbn. auto 6.
    + eexists. split; [reflexivity |]. cbn. auto 6.
Qed.

(** X11.  A block of lines none of which is an extrusion move (travel
    moves [G0 X.. Y..], [G1] moves with no E number, arcs, resets,
    comments) is written unchanged without raising, and leaves the
    last known XY position and the recorded moves untouched even when
    the lines carry X and Y numbers: the next extrusion move starts
    where the previous extrusion move ended.  When none of the lines
    starts with [G92], the E registers are untouched as well, even by
    a line that carries an E number, such as an arc. *)
Theorem travel_lines_are_invisible (st : state) (lines : list text) :
  Forall (fun line => qualifies line = false \/ Re.search pattern_e line = None)
         lines ->
  let o := run modifiers st lines in
  raised o = None /\ written o = lines /\
  last_x (final o) = last_x st /\ last_y (final o) = last_y st /\
  positions_3d (final o) = positions_3d st /\
  (Forall (fun line => startswith (txt "G92") line = false) lines ->
   new_E (final o) = new_E st /\ last_E (final o) = last_E st).
Proof.
  intros H. cbv zeta. revert st.
  induction H as [| line lines Hl _ IH]; intros st; cbn [run].
  - cbn. repeat split.
  - destruct (process_line_no_move st line Hl) as (st' & -> & Hx & Hy & Hp & He).
    cbn [written final raised].
    destruct (IH st') as (H1 & H2 & H3 & H4 & H5 & H6).
    rewrite H1, H2, H3, H4, H5, Hx, Hy, Hp.
    do 5 (split; [reflexivity |]).
    intros Hg. inversion Hg as [| l ls Hg1 Hg2]; subst.
    destruct (He Hg1) as [<- <-]. apply H6, Hg2.
Qed.

(** The recorded moves only grow, and a line that adds none is written
    as it was read. *)
Lemma process_line_positions (st : state) (line : text) (st' : state) (out : text) :
  process_line modifiers st line = Ok (st', out) ->
  exists added,
    positions_3d st' = positions_3d st ++ added /\
    (added = [] -> out = line).
Proof.
  intros H. destruct (process_line_inv modifiers _ _ _ _ H)
    as [(-> & Hp & _) | (_ & tok & cur & z & pl & m & _ & _ & _ & _ & _ & E)].
  - exists []. rewrite app_nil_r. auto.
  - unfold emit_move in E. injection E as -> _. cbn [positions_3d].
    eexists. split; [reflexivity |]. discriminate.
Qed.

Lemma run_positions (st : state) (lines : list text) :
  exists added,
    positions_3d (final (run modifiers st lines)) = positions_3d st ++ added /\
    (added = [] -> raised (run modifiers st lines) = None ->
     written (run modifiers st lines) = lines).
Proof.
  revert st. induction lines as [| line lines IH]; intros st; cbn [run].
  - exists []. cbn. rewrite app_nil_r. auto.
  - destruct (process_line modifiers st line) as [[st' out] | e] eqn:H.
    + cbn [written final raised].
      destruct (process_line_positions _ _ _ _ H) as (a1 & E1 & K1).
      destruct (IH st') as (a2 & E2 & K2).
      exists (a1 ++ a2). rewrite E2, E1, app_assoc. split; [reflexivity |].
      intros Hnil Hr. apply app_eq_nil in Hnil. destruct Hnil as [-> ->].
      rewrite (K1 eq_refl), (K2 eq_refl Hr). reflexivity.
    + cbn. exists []. rewrite app_nil_r. split; [reflexivity | discriminate].
Qed.

(** X1.  When the loop ends without an exception and has recorded no
    extrusion move (the case the script reports as "No extrusion moves
    found"), the output is the input, line for line. *)
Theorem no_move_found_identity (st : state) (lines : list text) :
  raised (run modifiers st lines) = None ->
  positions_3d (final (run modifiers st lines)) = positions_3d st ->
  written (run modifiers st lines) = lines.
Proof.
  intros Hr Hp. destruct (run_positions st lines) as (added & E & K).
  apply K; [| exact Hr].
  rewrite Hp in E. rewrite <- (app_nil_r (positions_3d st)) in E at 1.
  apply app_inv_head in E. congruence.
Qed.

(** X9.  On the lines the file yields, the body of the loop raises
    only out of the evaluation of a move's multiplier: every number
    the patterns capture converts to a float.  When a run stops with
    an exception, the lines before the failing line were all written,
    the failing line is a line of the extrusion branch with an E
    number, and the exception is the one raised by the multiplier of
    that line's move, evaluated between that line's end points at
    that line's height. *)
Theorem only_the_multiplier_raises (st : state) (lines : list text) (e : exn) :
  raised (run modifiers st lines) = Some e ->
  exists before_ line after_ tok cur z pl,
    lines = before_ ++ line :: after_ /\
    raised (run modifiers st before_) = None /\
    written (run modifiers st lines) = written (run modifiers st before_) /\
    List.length (written (run modifiers st lines)) = List.length before_ /\
    qualifies line = true /\
    Re.search pattern_e line = Some tok /\
    of_text (Re.group1 tok) = Ok cur /\
    scan_z (final (run modifiers st before_)) line = Ok z /\
    locate (final (run modifiers st before_))
      (Re.search pattern_x line) (Re.search pattern_y line) = Ok pl /\
    move_multiplier modifiers (start_pt pl) (end_pt pl) z = Raise e /\
    process_line modifiers (final (run modifiers st before_)) line = Raise e.
Proof.
  revert st. induction lines as [| line lines IH]; intros st; cbn [run].
  - discriminate.
  - destruct (process_line modifiers st line) as [[st' out] | e'] eqn:H.
    + cbn [raised written]. intros Hr.
      destruct (IH st' Hr)
        as (before_ & line' & after_ & tok & cur & z & pl &
            -> & Hb & Hw & Hn & Hq & Hs & Hc & Hz & Hl & Hm & Hp).
      exists (line :: before_), line', after_, tok, cur, z, pl.
      cbn [run app]. rewrite H. cbn [raised written final List.length].
      rewrite Hn, Hw. repeat (split; [reflexivity || assumption |]).
      exact Hp.
    + cbn [raised written]. intros Hr. injection Hr as ->.
      pose proof H as Hp. unfold process_line in H.
      destruct (startswith (txt "G92") line && contains_char "E" line).
      * destruct (Re.search pattern_e line) as [tok |] eqn:Hs; [| discriminate H].
        destruct (group1_converts _ _ _ Hs) as [v Hv]. rewrite Hv in H.
        discriminate H.
      * destruct (scan_z_total st line) as [z Hz]. rewrite Hz in H.
        cbn [bind] in H. fold (qualifies line) in H.
        destruct (qualifies line) eqn:Hq; [| discriminate H].
        destruct (Re.search pattern_e line) as [tok |] eqn:Hs; [| discriminate H].
        destruct (group1_converts _ _ _ Hs) as [cur Hc]. rewrite Hc in H.
        cbn [bind] in H.
        destruct (locate_total st line) as [pl Hl]. rewrite Hl in H.
        cbn [bind] in H.
        destruct (move_multiplier modifiers (start_pt pl) (end_pt pl) z)
          as [m | e'] eqn:Hm; [discriminate H |].
        cbn [bind] in H. injection H as ->.
        exists [], line, lines, tok, cur, z, pl.
        cbn [run app raised written final List.length].
        repeat (split; [reflexivity || assumption |]). exact Hp.
Qed.

End LoopMore.

(** ** Invariants of the loop *)

Section LoopInvariants.

Context {S : Shapely} {L : Libm}.
Variable modifiers : list modifier.

Lemma process_line_tracked (st : state) (line : text) (st' : state) (out : text) :
  process_line modifiers st line = Ok (st', out) -> tracked st -> tracked st'.
Proof.
  intros H Ht. destruct (process_line_inv modifiers _ _ _ _ H)
    as [(_ & Hp & Hx & Hy & _) |
        (_ & tok & cur & z & pl & m & _ & _ & _ & Hl & _ & E)].
  - unfold tracked. rewrite Hp, Hx, Hy. exact Ht.
  - unfold emit_move in E. injection E as -> _.
    unfold tracked. cbn [last_x last_y positions_3d].
    unfold locate in Hl.
    destruct (Re.search pattern_x line) as [xm |];
      [destruct (Re.search pattern_y line) as [ym |] |].
    + destruct (of_text (Re.group1 xm)) as [x | e]; [| discriminate Hl].
      destruct (of_text (Re.group1 ym)) as [y | e]; [| discriminate Hl].
      cbn [bind] in Hl. injection Hl as <-. cbn.
      right. exists x, y, z, m, (positions_3d st). auto.
    + destruct Ht as [(Hx & Hy & Hall) | (x & y & z0 & m0 & l & Hx & Hy & Hp)];
        rewrite Hx, Hy in Hl; injection Hl as <-; cbn.
      * left. split; [reflexivity | split; [reflexivity |]].
        apply Forall_app. split; [exact Hall |]. constructor; [| constructor].
        cbn. auto.
      * right. exists x, y, z, m, (positions_3d st). auto.
    + destruct Ht as [(Hx & Hy & Hall) | (x & y & z0 & m0 & l & Hx & Hy & Hp)];
        rewrite Hx, Hy in Hl; injection Hl as <-; cbn.
      * left. split; [reflexivity | split; [reflexivity |]].
        apply Forall_app. split; [exact Hall |]. constructor; [| constructor].
        cbn. auto.
      * right. exists x, y, z, m, (positions_3d st). auto.
Qed.

Lemma run_tracked (st : state) (lines : list text) :
  tracked st -> tracked (final (run modifiers st lines)).
Proof.
  revert st. induction lines as [| line lines IH]; intros st Ht; cbn [run].
  - exact Ht.
  - destruct (process_line modifiers st line) as [[st' out] | e] eqn:H.
    + cbn [final]. apply IH. exact (process_line_tracked _ _ _ _ H Ht).
    + exact Ht.
Qed.

Lemma run_keeps_position (lines : list text) :
  forall st,
    last_x st <> None -> last_y st <> None ->
    last_x (final (run modifiers st lines)) <> None /\
    last_y (final (run modifiers st lines)) <> None.
Proof.
  induction lines as [| line lines IH]; intros st Hx Hy; cbn [run].
  - auto.
  - destruct (process_line modifiers st line) as [[st' out] | e] eqn:H;
      cbn [final]; [| auto].
    apply IH.
    + destruct (process_line_inv modifiers _ _ _ _ H)
        as [(_ & _ & -> & _) |
            (_ & tok & cur & z & pl & m & _ & _ & _ & Hl & _ & E)];
        [exact Hx |].
      unfold emit_move in E. injection E as -> _. cbn [last_x].
      unfold locate in Hl.
      destruct (Re.search pattern_x line), (Re.search pattern_y line),
        (last_x st), (last_y st); try congruence;
        try (injection Hl as <-; cbn; congruence);
        destruct (of_text (Re.group1 _)); try discriminate Hl; cbn [bind] in Hl;
        destruct (of_text (Re.group1 _)); try discriminate Hl; cbn [bind] in Hl;
        injection Hl as <-; cbn; congruence.
    + destruct (process_line_inv modifiers _ _ _ _ H)
        as [(_ & _ & _ & -> & _) |
            (_ & tok & cur & z & pl & m & _ & _ & _ & Hl & _ & E)];
        [exact Hy |].
      unfold emit_move in E. injection E as -> _. cbn [last_y].
      unfold locate in Hl.
      destruct (Re.search pattern_x line), (Re.search pattern_y line),
        (last_x st), (last_y st); try congruence;
        try (injection Hl as <-; cbn; congruence);
        destruct (of_text (Re.group1 _)); try discriminate Hl; cbn [bind] in Hl;
        destruct (of_text (Re.group1 _)); try discriminate Hl; cbn [bind] in Hl;
        injection Hl as <-; cbn; congruence.
Qed.

(** X2.  After a run that raised nothing, [last_x] and [last_y] are
    set together: if they are unset every move recorded is at the
    cold-start origin (0, 0); if set they are the XY of the last move
    recorded; and such a run, from a state where they are set, ends
    with them set. *)
Theorem position_tracking_invariant (lines : list text) :
  raised (run modifiers initial_state lines) = None ->
  tracked (final (run modifiers initial_state lines)) /\
  (forall st,
      raised (run modifiers st lines) = None ->
      last_x st <> None -> last_y st <> None ->
      last_x (final (run modifiers st lines)) <> None /\
      last_y (final (run modifiers st lines)) <> None).
Proof.
  intros _. split.
  - apply run_tracked. left. cbn. auto.
  - intros st _. apply run_keeps_position.
Qed.

(** X3.  The height is read on every line except a [G92] line that
    contains an E: whatever the command, and in a comment as well, the
    first Z number of the line becomes [last_z].  A move on that same
    line is evaluated at that height: its multiplier, the one that
    scales the delta and is recorded, is the result of the evaluation
    at the new [last_z].  A [G92] line containing an E leaves [last_z]
    alone even when it carries a Z number. *)
Theorem height_tracking (st : state) (line : text) (st' : state) (out : text) :
  process_line modifiers st line = Ok (st', out) ->
  (startswith (txt "G92") line && contains_char "E" line = true ->
   last_z st' = last_z st) /\
  (startswith (txt "G92") line && contains_char "E" line = false ->
   (forall zm, Re.search pattern_z line = Some zm ->
               of_text (Re.group1 zm) = Ok (last_z st')) /\
   (Re.search pattern_z line = None -> last_z st' = last_z st)) /\
  (forall x y z m,
      positions_3d st' = positions_3d st ++ [(x, y, z, m)] -> z = last_z st') /\
  (qualifies line = true ->
   Re.search pattern_e line <> None ->
   exists pl m,
     locate st (Re.search pattern_x line) (Re.search pattern_y line) = Ok pl /\
     move_multiplier modifiers (start_pt pl) (end_pt pl) (last_z st') = Ok m /\
     positions_3d st'
       = positions_3d st ++ [(fst (end_pt pl), snd (end_pt pl), last_z st', m)] /\
     new_E st' = add (new_E st) (mul (sub (last_E st') (last_E st)) m) /\
     (forall zm, Re.search pattern_z line = Some zm ->
                 of_text (Re.group1 zm) = Ok (last_z st'))).
Proof.
  intros H.
  assert (Hscan : startswith (txt "G92") line && contains_char "E" line = false ->
                  scan_z st line = Ok (last_z st')).
  { intros Hr. pose proof H as H'. unfold process_line in H'. rewrite Hr in H'.
    destruct (scan_z st line) as [z | e]; [| discriminate H']. cbn [bind] in H'.
    destruct (startswith (txt "G1") line && contains_char "E" line);
      [| injection H' as <- _; reflexivity].
    destruct (Re.search pattern_e line) as [tok |];
      [| injection H' as <- _; reflexivity].
    destruct (of_text (Re.group1 tok)); [| discriminate H']. cbn [bind] in H'.
    destruct (locate st _ _); [| discriminate H']. cbn [bind] in H'.
    destruct (move_multiplier modifiers _ _ z); [| discriminate H'].
    injection H' as <- _. reflexivity. }
  split; [| split; [| split]].
  - intros Hr. unfold process_line in H. rewrite Hr in H.
    destruct (Re.search pattern_e line) as [tok |].
    + destruct (of_text (Re.group1 tok)); [| discriminate H].
      injection H as <- _. reflexivity.
    + injection H as <- _. reflexivity.
  - intros Hr. pose proof (Hscan Hr) as Hz. unfold scan_z in Hz. split.
    + intros zm Hs. rewrite Hs in Hz. exact Hz.
    + intros Hs. rewrite Hs in Hz. injection Hz as <-. reflexivity.
  - intros x y z m Hp.
    destruct (process_line_inv modifiers _ _ _ _ H)
      as [(_ & Hp' & _) | (_ & tok & cur & z0 & pl & m0 & _ & _ & _ & _ & _ & E)].
    + rewrite Hp' in Hp. symmetry in Hp. elim (snoc_neq _ _ Hp).
    + unfold emit_move in E. injection E as -> _. cbn [positions_3d last_z] in *.
      apply app_inv_head in Hp. congruence.
  - intros Hq Hne.
    destruct (process_line_inv modifiers _ _ _ _ H)
      as [(_ & _ & _ & _ & [Hno | Hno]) |
          (_ & tok & cur & z0 & pl & m0 & Hs & Hc & Hz & Hl & Hm & E)];
      [congruence | congruence |].
    unfold emit_move in E. injection E as -> _.
    cbn [positions_3d last_z last_E new_E].
    exists pl, m0. split; [exact Hl |]. split; [exact Hm |].
    split; [reflexivity |]. split; [reflexivity |].
    intros zm Hzm. unfold scan_z in Hz. rewrite Hzm in Hz. exact Hz.
Qed.

(** X5.  A move whose raw E repeats the previous raw E (a move with no
    extrusion) leaves the accumulator where it was, whatever the finite
    multiplier: the line is rewritten with the value already printed. *)
Theorem repeated_E_keeps_accumulator (st : state) (line : text)
    (tok : Re.match_obj) (st' : state) (out : text) :
  process_line modifiers st line = Ok (st', out) ->
  qualifies line = true ->
  Re.search pattern_e line = Some tok ->
  of_text (Re.group1 tok) = Ok (last_E st) ->
  is_finite (last_E st) = true ->
  new_E st <> S754_zero true ->
  exists x y z m,
    positions_3d st' = positions_3d st ++ [(x, y, z, m)] /\
    (is_finite m = true ->
     new_E st' = new_E st /\
     out = Re.sub pattern_e ("E"%char :: format_5f (new_E st)) line).
Proof.
  intros H Hq Hs Hc Hf Hnz.
  destruct (process_line_inv modifiers _ _ _ _ H)
    as [(_ & _ & _ & _ & [Hno | Hno]) |
        (_ & tok' & cur & z & pl & m & Hs' & Hc' & _ & _ & _ & E)];
    try congruence.
  rewrite Hs in Hs'. injection Hs' as <-. rewrite Hc in Hc'. injection Hc' as <-.
  unfold emit_move in E. rewrite (sub_self _ Hf) in E.
  exists (fst (end_pt pl)), (snd (end_pt pl)), z, m.
  destruct (is_finite m) eqn:Hm.
  - destruct (mul_zero_l m Hm) as [s Hmul]. rewrite Hmul in E.
    rewrite (add_zero_r _ s Hnz) in E.
    injection E as -> ->. cbn [positions_3d new_E]. auto.
  - injection E as -> ->. cbn [positions_3d]. split; [reflexivity | discriminate].
Qed.

End LoopInvariants.

(** ** The field written is a field the loop can read *)

Lemma uint_digits (d : Decimal.uint) :
  forallb is_digit (list_ascii_of_string (NilEmpty.string_of_uint d)) = true.
Proof. induction d; cbn; auto. Qed.

Lemma dec_digits (n : Z) : forallb is_digit (dec n) = true.
Proof.
  unfold dec, NilZero.string_of_uint.
  generalize (N.to_uint (Z.to_N n)). intros d.
  destruct d; try reflexivity;
    match goal with
    | |- forallb _ (list_ascii_of_string (NilEmpty.string_of_uint ?u)) = true =>
        apply (uint_digits u)
    end.
Qed.

Lemma fixed5_lang (s : bool) (r : Z) :
  lang pattern_e ("E"%char :: fixed5 s r).
Proof.
  assert (Hd : forall d, 0 <= d < 10 ->
                         Re.accepts (Re.Range "0" "9") (digit_char d) = true)
    by (intros d Hd; rewrite accepts_digit; apply digit_char_is_digit, Hd).
  assert (Hm : forall k, 0 <= (r mod 100000 / k) mod 10 < 10)
    by (intros k; apply Z.mod_pos_bound; lia).
  exists "E"%char, (fixed5 s r). split; [reflexivity | split; [reflexivity |]].
  assert (Hrest : lang [Re.Star (Re.Range "0" "9"); Re.Opt (Re.Chr ".");
                        Re.Plus (Re.Range "0" "9")]
                       (dec (r / 100000) ++ "."%char :: frac5 (r mod 100000))).
  { exists (dec (r / 100000)), ("."%char :: frac5 (r mod 100000)).
    split; [reflexivity |]. split; [rewrite forallb_digits_eq; apply dec_digits |].
    right. exists "."%char, (frac5 (r mod 100000)).
    split; [reflexivity | split; [reflexivity |]].
    unfold frac5. cbn [map].
    exists (digit_char ((r mod 100000 / 10000) mod 10)),
      [digit_char ((r mod 100000 / 1000) mod 10);
       digit_char ((r mod 100000 / 100) mod 10);
       digit_char ((r mod 100000 / 10) mod 10);
       digit_char ((r mod 100000 / 1) mod 10)], [].
    split; [reflexivity |]. split; [apply Hd, Hm |].
    split; [| reflexivity].
    cbn [forallb]. rewrite !Hd by apply Hm. reflexivity. }
  unfold fixed5. destruct s; cbn [sign_text txt list_ascii_of_string app].
  - right. exists "-"%char, (dec (r / 100000) ++ "."%char :: frac5 (r mod 100000)).
    split; [reflexivity | split; [reflexivity | exact Hrest]].
  - left. exact Hrest.
Qed.

(** X6.  The field the loop writes for a finite accumulator is itself
    an E number of the loop's pattern, and its digits convert back to a
    float: a rewritten line can be read again.  For an infinite or NaN
    accumulator what is written ([Einf], [E-inf], [Enan]) is no E
    number any more. *)
Theorem rewritten_field_is_a_number (v : float) :
  (is_finite v = true ->
   lang pattern_e ("E"%char :: format_5f v) /\
   exists y, of_text (format_5f v) = Ok y) /\
  (is_finite v = false ->
   Re.search pattern_e ("E"%char :: format_5f v) = None).
Proof.
  split.
  - intros Hf.
    assert (HL : lang pattern_e ("E"%char :: format_5f v))
      by (destruct v; try discriminate Hf; apply fixed5_lang).
    split; [exact HL |].
    destruct (lang_letter _ _ _ HL) as (w & Ew & Hw).
    injection Ew as <-. apply number_converts, Hw.
  - destruct v as [s | [] | | s m e]; intros Hf; try discriminate Hf;
      vm_compute; reflexivity.
Qed.

Section Registers.

Context {S : Shapely} {L : Libm}.
Variable modifiers : list modifier.

(** The recorded moves are only written to: a line is handled alike in
    two states that differ at most in them. *)
Lemma process_line_same_registers (st1 st2 : state) (line : text) :
  same_registers st1 st2 ->
  match process_line modifiers st1 line, process_line modifiers st2 line with
  | Ok (s1, o1), Ok (s2, o2) => o1 = o2 /\ same_registers s1 s2
  | Raise e1, Raise e2 => e1 = e2
  | _, _ => False
  end.
Proof.
  destruct st1 as [n1 e1 x1 y1 z1 p1], st2 as [n2 e2 x2 y2 z2 p2].
  unfold same_registers. cbn [new_E last_E last_x last_y last_z].
  intros (-> & -> & -> & -> & ->).
  unfold process_line, scan_z, locate, emit_move, with_z, with_reset.
  cbn [new_E last_E last_x last_y last_z positions_3d].
  destruct (startswith (txt "G92") line && contains_char "E" line).
  - destruct (Re.search pattern_e line) as [tok |]; [| cbn; auto 6].
    destruct (of_text (Re.group1 tok)); cbn; auto 6.
  - destruct (Re.search pattern_z line) as [zm |].
    + destruct (of_text (Re.group1 zm)) as [z | ez]; cbn [bind]; [| reflexivity].
      destruct (startswith (txt "G1") line && contains_char "E" line);
        [| cbn; auto 6].
      destruct (Re.search pattern_e line) as [tok |]; [| cbn; auto 6].
      destruct (of_text (Re.group1 tok)) as [cur | ec]; cbn [bind]; [| reflexivity].
      destruct (match Re.search pattern_x line with
                | Some xm =>
                    match Re.search pattern_y line with
                    | Some ym => _
                    | None => _
                    end
                | None => _
                end) as [pl | el]; cbn [bind]; [| reflexivity].
      destruct (move_multiplier modifiers (start_pt pl) (end_pt pl) z);
        cbn; auto 6.
    + cbn [bind].
      destruct (startswith (txt "G1") line && contains_char "E" line);
        [| cbn; auto 6].
      destruct (Re.search pattern_e line) as [tok |]; [| cbn; auto 6].
      destruct (of_text (Re.group1 tok)) as [cur | ec]; cbn [bind]; [| reflexivity].
      destruct (match Re.search pattern_x line with
                | Some xm =>
                    match Re.search pattern_y line with
                    | Some ym => _
                    | None => _
                    end
                | None => _
                end) as [pl | el]; cbn [bind]; [| reflexivity].
      destruct (move_multiplier modifiers (start_pt pl) (end_pt pl) z2);
        cbn; auto 6.
Qed.

Lemma run_same_registers (lines : list text) :
  forall st1 st2,
    same_registers st1 st2 ->
    written (run modifiers st1 lines) = written (run modifiers st2 lines) /\
    raised (run modifiers st1 lines) = raised (run modifiers st2 lines) /\
    same_registers (final (run modifiers st1 lines)) (final (run modifiers st2 lines)).
Proof.
  induction lines as [| line lines IH]; intros st1 st2 H; cbn [run].
  - cbn. auto.
  - pose proof (process_line_same_registers st1 st2 line H) as Hstep.
    destruct (process_line modifiers st1 line) as [[s1 o1] | e1],
      (process_line modifiers st2 line) as [[s2 o2] | e2];
      try contradiction.
    + destruct Hstep as [-> Hs]. cbn [written final raised].
      destruct (IH s1 s2 Hs) as (-> & -> & Hf). auto.
    + subst e2. cbn. auto.
Qed.

(** X12.  A [G92] line with an E number forgets the extrusion history:
    from two states that agree on the last known position and height,
    whatever their accumulators and recorded moves, the reset line and
    everything after it are written alike, and stop alike.  The
    recorded moves never influence what is written. *)
Theorem reset_forgets_extrusion_history (st1 st2 : state) (line : text)
    (tok : Re.match_obj) (lines : list text) :
  startswith (txt "G92") line = true ->
  Re.search pattern_e line = Some tok ->
  last_x st1 = last_x st2 -> last_y st1 = last_y st2 -> last_z st1 = last_z st2 ->
  written (run modifiers st1 (line :: lines))
    = written (run modifiers st2 (line :: lines)) /\
  raised (run modifiers st1 (line :: lines))
    = raised (run modifiers st2 (line :: lines)).
Proof.
  intros Hp Hs Hx Hy Hz. cbn [run].
  destruct (group1_converts _ _ _ Hs) as [v Hv].
  rewrite !(process_line_reset modifiers _ line tok v Hp Hs Hv).
  cbn [written raised].
  destruct (run_same_registers lines (with_reset st1 v) (with_reset st2 v))
    as (-> & -> & _); [| auto].
  unfold same_registers. cbn. auto.
Qed.

End Registers.

(** ** The order of the modifiers *)

Lemma mul_comm (x y : float) : mul x y = mul y x.
Proof.
  destruct x as [sx | sx | | sx mx ex], y as [sy | sy | | sy my ey];
    unfold mul, SFmul; try reflexivity; try (rewrite (xorb_comm sx sy); reflexivity).
  rewrite (xorb_comm sx sy), (Pos.mul_comm mx my), (Z.add_comm ex ey). reflexivity.
Qed.

Section Order.

Context {S : Shapely} {L : Libm}.

(** X13.  With two modifiers loaded, as [modifier_defs] has, their
    order does not matter where both evaluate: the point multiplier is
    the same binary64 number either way.  (With three the roundings of
    the running product can make the last bit depend on the order.) *)
Theorem two_modifiers_commute (a b : modifier) (x y z va vb : float) :
  compute_multiplier_for_modifier x y z a = Ok va ->
  compute_multiplier_for_modifier x y z b = Ok vb ->
  valid va = true -> valid vb = true ->
  compute_multiplier_multiple [a; b] x y z = Ok (mul va vb) /\
  compute_multiplier_multiple [b; a] x y z = Ok (mul va vb).
Proof.
  intros Ha Hb Hva Hvb. unfold compute_multiplier_multiple. cbn [multiply_all].
  rewrite Ha, Hb. cbn [bind].
  rewrite (mul_one_l va Hva), (mul_one_l vb Hvb), (mul_comm vb va). auto.
Qed.

End Order.

(** * Concrete runs

    The theorems above at concrete streams and modifiers, run on the
    reference instance of the libraries. *)

Import Reference.

Ltac run_it := vm_compute; reflexivity.
Ltac differ := let H := fresh in vm_compute; intro H; discriminate H.

(** A reset to 12.0 and a move to raw 14.0 inside the square of
    multiplier 1.5. *)
Lemma accumulator_delta_law_witness :
  let mods := [square_mod] in
  (exists st',
      process_line mods initial_state (txt "G92 E12.0")
        = Ok (st', txt "G92 E12.0") /\
      last_E st' = fl "12.0" /\ new_E st' = fl "12.0") /\
  (exists st',
      process_line mods initial_state (txt "G1 X5 Y5 E14.0")
        = Ok (st', txt "G1 X5 Y5 E21.00000") /\
      new_E st' = fl "21" /\ last_E st' = fl "14") /\
  written (run mods initial_state [txt "G92 E12.0"; txt "G1 X5 Y5 E14.0"])
    = [txt "G92 E12.0"; txt "G1 X5 Y5 E15.00000"].
Proof.
  cbv zeta. split; [| split].
  - destruct (accumulator_delta_law [square_mod] initial_state
                (txt "G92 E12.0")) as [H _].
    destruct (H {| Re.before := txt "G92 "; Re.matched := txt "E12.0"; Re.after := [] |}
                (fl "12.0")) as (st' & H1 & H2 & H3); try run_it.
    exists st'. rewrite H1, H2, H3. repeat split.
  - destruct (accumulator_delta_law [square_mod] initial_state
                (txt "G1 X5 Y5 E14.0")) as [_ [H _]].
    destruct (H {| Re.before := txt "G1 X5 Y5 "; Re.matched := txt "E14.0";
                   Re.after := [] |}
                (fl "14.0") zero
                {| start_pt := (fl "5", fl "5"); end_pt := (fl "5", fl "5");
                   next_x := Some (fl "5"); next_y := Some (fl "5") |}
                (fl "1.5")) as (st' & H1 & H2 & H3);
      try run_it.
    exists st'. rewrite H1, H2, H3. repeat split; run_it.
  - destruct (accumulator_delta_law [square_mod] initial_state
                (txt "G1 X5 Y5 E14.0")) as [_ [_ H]].
    rewrite (H {| Re.before := txt "G1 X5 Y5 "; Re.matched := txt "E14.0";
                Re.after := [] |}
             zero
             {| start_pt := (fl "5", fl "5"); end_pt := (fl "5", fl "5");
                next_x := Some (fl "5"); next_y := Some (fl "5") |});
      run_it.
Defined.

(** A move from inside the square to outside it, sampled 7 times, and a
    move with no 2D modifier loaded. *)
Lemma boundary_crossing_is_neutral_witness :
  compute_effective_multiplier [square_mod] (fl "5", fl "5") (fl "15", fl "5") zero 7
    = Ok one /\
  compute_effective_multiplier [ball_mod] (fl "20", fl "20") (fl "22", fl "20") zero 5
    = compute_average_multiplier [ball_mod] (fl "20", fl "20") (fl "22", fl "20") zero 5.
Proof.
  split.
  - destruct (boundary_crossing_is_neutral [square_mod]
                (fl "5", fl "5") (fl "15", fl "5") zero 7) as [H _].
    rewrite H; [reflexivity | differ | differ].
  - destruct (boundary_crossing_is_neutral [ball_mod]
                (fl "20", fl "20") (fl "22", fl "20") zero 5) as [_ H].
    destruct H as [_ H]; [run_it |]. rewrite H. reflexivity.
Defined.

(** The four cases of one modifier: below [min_layer], outside the
    square, outside the ball, and half way to the edge of the ball. *)
Lemma single_modifier_evaluation_witness :
  compute_multiplier_for_modifier (fl "5") (fl "5") (fl "-1") square_mod = Ok one /\
  compute_multiplier_for_modifier (fl "15") (fl "5") zero square_mod = Ok one /\
  compute_multiplier_for_modifier (fl "30") (fl "20") zero ball_mod = Ok one /\
  compute_multiplier_for_modifier (fl "22") (fl "20") zero ball_mod = Ok (fl "1.5").
Proof.
  split; [| split; [| split]].
  - destruct (single_modifier_evaluation (fl "5") (fl "5") (fl "-1") square_mod)
      as (H & _).
    rewrite H; [reflexivity | run_it].
  - destruct (single_modifier_evaluation (fl "15") (fl "5") zero square_mod)
      as (_ & H & _).
    rewrite (H [(fl "0", fl "0", fl "10", fl "10")] (fl "5", fl "5"));
      [reflexivity | reflexivity | run_it].
  - destruct (single_modifier_evaluation (fl "30") (fl "20") zero ball_mod)
      as (_ & _ & H & _).
    rewrite (H (fl "20") (fl "20") zero (fl "10"));
      [reflexivity | reflexivity | run_it | run_it].
  - destruct (single_modifier_evaluation (fl "22") (fl "20") zero ball_mod)
      as (_ & _ & _ & H).
    rewrite (H (fl "2") (fl "0.5") (fl "0.5")).
    + run_it.
    + run_it.
    + right. exists (fl "20"), (fl "20"), zero.
      split; [reflexivity | split; run_it].
    + run_it.
    + run_it.
Defined.

(** C3 as stated fails: in the case of the formula the evaluation can
    raise instead of returning.  At the centroid of a 3D modifier of
    radius 0 the division raises; and at a coordinate whose square
    overflows the distance itself raises, although the point is
    farther than [r_max] from the centroid along X alone. *)
Lemma evaluation_can_raise :
  ltb zero (min_layer point_mod) = false /\
  dist3d zero zero zero zero zero zero = Ok zero /\
  ltb (r_max point_mod) zero = false /\
  compute_multiplier_for_modifier zero zero zero point_mod
    = Raise ZeroDivisionError /\
  ltb (r_max ball_mod) (sub huge (fl "20")) = true /\
  dist3d huge (fl "20") zero (fl "20") (fl "20") zero = Raise OverflowError /\
  compute_multiplier_for_modifier huge (fl "20") zero ball_mod
    = Raise OverflowError.
Proof. repeat split; run_it. Qed.

(** C5 at the failing input: the cold-start point (0, 0, 0) and a 3D
    modifier whose vertices coincide there. *)
Lemma zero_radius_divides_by_zero_witness :
  compute_multiplier_for_modifier zero zero zero point_mod = Raise ZeroDivisionError.
Proof.
  rewrite (zero_radius_divides_by_zero zero zero zero point_mod).
  - reflexivity.
  - run_it.
  - run_it.
  - right. exists zero, zero, zero, zero.
    split; [reflexivity | split; run_it].
Defined.

(** The run that reaches it: an extrusion with no X or Y as the first
    move of the stream.  Nothing is written. *)
Example degenerate_move_raises :
  let o := run [point_mod] initial_state [txt "G1 E2"; txt "G92 E0"] in
  written o = [] /\ raised o = Some ZeroDivisionError.
Proof. split; run_it. Qed.

(** The mean over five samples of a move from the centre of the ball
    half way to its edge. *)
Lemma segment_multiplier_is_mean_witness :
  compute_effective_multiplier [ball_mod] (fl "20", fl "20") (fl "22", fl "20") zero 5
    = Ok (fl "1.75") /\
  mean_of_samples [ball_mod] (fl "20", fl "20") (fl "22", fl "20") zero 5
    = Ok (fl "1.75").
Proof.
  rewrite (segment_multiplier_is_mean [ball_mod]
             (fl "20", fl "20") (fl "22", fl "20") zero 5).
  - split; run_it.
  - left. run_it.
Defined.


(** C4 as stated fails: a number after an E in a comment is rewritten
    with the extrusion field, so the line written is not the line read
    with its first E number replaced. *)
Lemma comment_number_is_rewritten_too :
  let line := txt "G1 X1 Y1 E1 ; E2" in
  let o := run [] initial_state [line] in
  written o = [txt "G1 X1 Y1 E1.00000 ; E1.00000"] /\
  replace_first_E ("E"%char :: format_5f (new_E (final o))) line
    = txt "G1 X1 Y1 E1.00000 ; E2" /\
  written o <> [replace_first_E ("E"%char :: format_5f (new_E (final o))) line] /\
  written o <> [line].
Proof. cbv zeta. repeat split; try run_it; differ. Qed.

(** A reset, a move into the square of multiplier 1.5 with a second E
    number in its comment, and a travel line. *)
Lemma every_E_number_is_rewritten_witness :
  let lines := [txt "G92 E0"; txt "G1 X5 Y5 E1 ; E2"; txt "G1 Z0.2"] in
  let o := run [square_mod] initial_state lines in
  let out := txt "G1 X5 Y5 E1.50000 ; E1.50000" in
  List.length (written o) = 3%nat /\
  nth_error (written o) 1 = Some out /\
  out = Re.sub pattern_e (txt "E1.50000") (txt "G1 X5 Y5 E1 ; E2") /\
  out = txt "G1 X5 Y5 " ++ txt "E1.50000"
          ++ Re.sub pattern_e (txt "E1.50000") (txt " ; E2") /\
  Rewritten pattern_e (txt "E1.50000") (txt "G1 X5 Y5 E1 ; E2") out /\
  five_decimals (txt "1.50000").
Proof.
  cbv zeta.
  pose proof (every_E_number_is_rewritten [square_mod] initial_state
                [txt "G92 E0"; txt "G1 X5 Y5 E1 ; E2"; txt "G1 Z0.2"]) as H.
  cbv zeta in H. destruct H as (_ & H2 & H3).
  split; [rewrite H2; [reflexivity | run_it] |].
  assert (Ho : nth_error
                 (written (run [square_mod] initial_state
                    [txt "G92 E0"; txt "G1 X5 Y5 E1 ; E2"; txt "G1 Z0.2"])) 1
               = Some (txt "G1 X5 Y5 E1.50000 ; E1.50000")) by run_it.
  split; [exact Ho |].
  destruct (H3 1%nat (txt "G1 X5 Y5 E1 ; E2")
              (txt "G1 X5 Y5 E1.50000 ; E1.50000") eq_refl Ho) as (_ & _ & Hm).
  destruct (Hm {| Re.before := txt "G1 X5 Y5 "; Re.matched := txt "E1";
                  Re.after := txt " ; E2" |}) as (E1 & E2 & E3 & E4);
    [run_it | run_it |].
  assert (Ev : format_5f
                 (new_E (final (run [square_mod] initial_state
                    (firstn 2 [txt "G92 E0"; txt "G1 X5 Y5 E1 ; E2";
                               txt "G1 Z0.2"]))))
               = txt "1.50000") by run_it.
  assert (Ef : is_finite
                 (new_E (final (run [square_mod] initial_state
                    (firstn 2 [txt "G92 E0"; txt "G1 X5 Y5 E1 ; E2";
                               txt "G1 Z0.2"]))))
               = true) by run_it.
  specialize (E4 Ef). rewrite Ev in E1, E2, E3, E4.
  split; [exact E1 | split; [exact E2 | split; [exact E3 | exact E4]]].
Defined.

(** C8 as stated fails: on a line with an X number and no Y number the
    X number is not used; the move ends where it started and [last_x]
    keeps its value. *)
Lemma single_coordinate_is_ignored :
  let line := txt "G1 X10 E1" in
  Re.search pattern_x line
    = Some {| Re.before := txt "G1 "; Re.matched := txt "X10"; Re.after := txt " E1" |} /\
  match process_line [] at_1_2 line with
  | Ok (st', out) =>
      last_x st' = Some (fl "1") /\ last_x st' <> Some (fl "10") /\
      positions_3d st' = [(fl "1", fl "2", zero, one)] /\
      out = txt "G1 X10 E1.00000"
  | Raise _ => False
  end.
Proof. cbv zeta. split; [run_it |]. vm_compute. repeat split. intro H. discriminate H. Qed.

(** A move from (1, 2) to (3, 4). *)
Lemma move_endpoints_witness :
  exists st' out,
    process_line [] at_1_2 (txt "G1 X3 Y4 E1") = Ok (st', out) /\
    last_x st' = Some (fl "3") /\ last_y st' = Some (fl "4") /\
    positions_3d st' = [(fl "3", fl "4", zero, one)].
Proof.
  destruct (process_line [] at_1_2 (txt "G1 X3 Y4 E1")) as [[st' out] | e] eqn:H;
    [| vm_compute in H; discriminate H].
  exists st', out. split; [reflexivity |].
  destruct (move_endpoints [] at_1_2 (txt "G1 X3 Y4 E1") st' out H)
    as (z & m & start & end_ & Hz & Hm & Hp & Hboth & _); [run_it | differ |].
  destruct (Hboth
              {| Re.before := txt "G1 "; Re.matched := txt "X3"; Re.after := txt " Y4 E1" |}
              {| Re.before := txt "G1 X3 "; Re.matched := txt "Y4"; Re.after := txt " E1" |})
    as (Hx & Hy & Hlx & Hly & Hs); [run_it | run_it |].
  rewrite Hlx, Hly, Hp.
  assert (Ex : of_text (txt "3") = Ok (fl "3")) by run_it.
  assert (Ey : of_text (txt "4") = Ok (fl "4")) by run_it.
  assert (Ez : scan_z at_1_2 (txt "G1 X3 Y4 E1") = Ok zero) by run_it.
  cbn [Re.group1 Re.matched tl txt list_ascii_of_string] in Hx, Hy.
  change (of_text (txt "3") = Ok (fst end_)) in Hx.
  change (of_text (txt "4") = Ok (snd end_)) in Hy.
  rewrite Ex in Hx. rewrite Ey in Hy. rewrite Ez in Hz.
  injection Hx as Hx. injection Hy as Hy. injection Hz as Hz.
  rewrite (move_multiplier_nil start end_ z) in Hm. injection Hm as Hm.
  rewrite <- Hx, <- Hy, <- Hz, <- Hm. repeat split.
Defined.

(** C9 as stated fails: with no modifier loaded the extrusion field is
    still rewritten in [.5f]. *)
Lemma unmodified_stream_is_reformatted :
  let lines := [txt "G1 X1 Y1 E1.5"; txt "G1 X2 Y1 E0.1234567"] in
  written (run [] initial_state lines)
    = [txt "G1 X1 Y1 E1.50000"; txt "G1 X2 Y1 E0.12346"] /\
  written (run [] initial_state lines) <> lines.
Proof. cbv zeta. split; [run_it | differ]. Qed.

(** The first line of that stream. *)
Lemma no_modifiers_rewrite_witness :
  exists st',
    process_line [] initial_state (txt "G1 X1 Y1 E1.5")
      = Ok (st', txt "G1 X1 Y1 E1.50000") /\
    new_E st' = fl "1.5" /\
    five_decimals (format_5f (new_E st')) /\
    process_line [] initial_state (txt "G1 X1 Y1 F1500")
      = Ok (initial_state, txt "G1 X1 Y1 F1500").
Proof.
  destruct (no_modifiers_rewrite initial_state [])
    as (_ & _ & _ & _ & Hsame & Hmove).
  destruct (Hmove initial_state (txt "G1 X1 Y1 E1.5")
              {| Re.before := txt "G1 X1 Y1 "; Re.matched := txt "E1.5"; Re.after := [] |})
    as (cur & st' & Hrest); [run_it | run_it |].
  cbv zeta in Hrest. destruct Hrest as (Hc & Hp & _ & Hn & _ & _ & Hd & _).
  assert (Ec : of_text (txt "1.5") = Ok (fl "1.5")) by run_it.
  change (of_text (txt "1.5") = Ok cur) in Hc.
  rewrite Ec in Hc. injection Hc as Hc.
  assert (Hn' : new_E st' = fl "1.5")
    by (rewrite Hn; rewrite <- Hc; run_it).
  exists st'. rewrite Hp. split; [rewrite Hn'; run_it |].
  split; [exact Hn' |].
  split; [apply Hd; rewrite Hn'; reflexivity |].
  destruct (Hsame initial_state (txt "G1 X1 Y1 F1500")) as (st2 & H2); [left; run_it |].
  rewrite H2. vm_compute in H2. injection H2 as <-. reflexivity.
Defined.

(** An E number too large for a float: the accumulator becomes
    infinite and then NaN, and is written as such. *)
Example overflowing_E_is_written_as_inf :
  let big := txt "G1 X1 Y1 E" ++ repeat "9"%char 400 in
  written (run [] initial_state [big; big]) = [txt "G1 X1 Y1 Einf"; txt "G1 X1 Y1 Enan"].
Proof. vm_compute. reflexivity. Qed.

(** C10 as stated fails: a line that starts with [G1] and contains an
    [E], but no E number, is not handled as an extrusion move: it is
    written unchanged, nothing is recorded, and its X and Y are not
    taken as the last known position. *)
Lemma G1_line_without_E_number_is_no_move :
  let line := txt "G1 X3 Y3 ; END" in
  startswith (txt "G1") line = true /\
  contains_char "E" line = true /\
  Re.search pattern_e line = None /\
  process_line [square_mod] at_1_2 line = Ok (at_1_2, line) /\
  last_x at_1_2 = Some (fl "1") /\ positions_3d at_1_2 = [].
Proof. cbv zeta. repeat split; run_it. Qed.

(** A [G10] line whose first E number is in its comment. *)
Lemma extrusion_line_classification_witness :
  exists st' out,
    process_line [] initial_state (txt "G10 P1 ; E5 E7") = Ok (st', out) /\
    positions_3d st' <> positions_3d initial_state /\
    of_text (txt "5") = Ok (last_E st').
Proof.
  destruct (process_line [] initial_state (txt "G10 P1 ; E5 E7"))
    as [[st' out] | e] eqn:H; [| vm_compute in H; discriminate H].
  exists st', out. split; [reflexivity |].
  destruct (extrusion_line_classification [] initial_state
              (txt "G10 P1 ; E5 E7") st' out H) as ([_ Hpos] & _ & _ & Htok).
  split.
  - apply Hpos. split; [run_it | split; [run_it | differ]].
  - destruct (Htok {| Re.before := txt "G10 P1 ; "; Re.matched := txt "E5";
                      Re.after := txt " E7" |}) as (Hv & _); [run_it | run_it | run_it |].
    exact Hv.
Defined.

(** ** The further properties at concrete inputs *)

(** A start-up block with no extrusion move. *)
Lemma no_move_found_identity_witness :
  let lines := [txt "; header"; txt "G0 X1 Y1 Z0.2"; txt "G92 E0"; txt "G1 X5 Y5 F1500"] in
  written (run [square_mod] initial_state lines) = lines.
Proof.
  cbv zeta.
  rewrite (no_move_found_identity [square_mod] initial_state
             [txt "; header"; txt "G0 X1 Y1 Z0.2"; txt "G92 E0"; txt "G1 X5 Y5 F1500"]);
    [reflexivity | run_it | run_it].
Defined.

(** A move that carries its own height, and another Z in its comment. *)
Lemma height_tracking_witness :
  match process_line [] initial_state (txt "G1 X5 Y5 Z0.4 E1 ; Z9") with
  | Ok (st', out) =>
      of_text (txt "0.4") = Ok (last_z st') /\
      (forall x y z m, positions_3d st' = [(x, y, z, m)] -> z = last_z st') /\
      exists pl m,
        move_multiplier [] (start_pt pl) (end_pt pl) (last_z st') = Ok m /\
        positions_3d st' = [(fst (end_pt pl), snd (end_pt pl), last_z st', m)]
  | Raise _ => False
  end.
Proof.
  destruct (process_line [] initial_state (txt "G1 X5 Y5 Z0.4 E1 ; Z9"))
    as [[st' out] | e] eqn:H; [| vm_compute in H; discriminate H].
  destruct (height_tracking [] initial_state (txt "G1 X5 Y5 Z0.4 E1 ; Z9") st' out H)
    as (_ & Hz & Hp & Hmove).
  destruct Hz as [Hz _]; [run_it |].
  split; [| split].
  - apply (Hz {| Re.before := txt "G1 X5 Y5 "; Re.matched := txt "Z0.4";
                 Re.after := txt " E1 ; Z9" |}). run_it.
  - intros x y z m E. apply (Hp x y z m). exact E.
  - destruct Hmove as (pl & m & _ & Hm & Hpos & _); [run_it | differ |].
    exists pl, m. split; [exact Hm | exact Hpos].
Defined.

(** A move inside the square that repeats the raw E of the state. *)
Lemma repeated_E_keeps_accumulator_witness :
  match process_line [square_mod] mid_print (txt "G1 X6 Y5 E5") with
  | Ok (st', out) =>
      exists x y z m,
        positions_3d st' = positions_3d mid_print ++ [(x, y, z, m)] /\
        (is_finite m = true ->
         new_E st' = new_E mid_print /\
         out = Re.sub pattern_e ("E"%char :: format_5f (new_E mid_print))
                 (txt "G1 X6 Y5 E5"))
  | Raise _ => False
  end.
Proof.
  destruct (process_line [square_mod] mid_print (txt "G1 X6 Y5 E5"))
    as [[st' out] | e] eqn:H; [| vm_compute in H; discriminate H].
  apply (repeated_E_keeps_accumulator [square_mod] mid_print (txt "G1 X6 Y5 E5")
           {| Re.before := txt "G1 X6 Y5 "; Re.matched := txt "E5"; Re.after := [] |}
           st' out H); try run_it.
  differ.
Defined.

(** What that line is written as. *)
Example repeated_E_line :
  match process_line [square_mod] mid_print (txt "G1 X6 Y5 E5") with
  | Ok (st', out) => new_E st' = fl "7.5" /\ out = txt "G1 X6 Y5 E7.50000"
  | Raise _ => False
  end.
Proof. vm_compute. split; reflexivity. Qed.

(** A crossing move one unit below both modifiers' [min_layer]. *)
Lemma below_every_min_layer_witness :
  move_multiplier [square_mod; ball_mod] (fl "5", fl "5") (fl "15", fl "5") (fl "-1")
    = Ok one.
Proof.
  destruct (below_every_min_layer [square_mod; ball_mod] (fl "-1")) as (_ & _ & H).
  - constructor; [run_it | constructor; [run_it | constructor]].
  - rewrite H. reflexivity.
Defined.

(** The square of [modifier1.stl]'s entry, 1.5 at centre and edge,
    evaluated at its centre. *)
Lemma constant_modifier_witness :
  compute_multiplier_for_modifier (fl "5") (fl "5") zero square_mod = Ok (fl "1.5") /\
  (fl "1.5" = one \/ fl "1.5" = S754_finite false 6755399441055744 (-52) \/
   (fl "1.5" = S754_nan /\
    exists r q n,
      ((exists polygon c,
           modifier_shape square_mod = Shape2D polygon c /\
           r = distance (fl "5", fl "5") c) \/
       (exists cx cy cz,
           modifier_shape square_mod = Shape3D (cx, cy, cz) /\
           dist3d (fl "5") (fl "5") zero cx cy cz = Ok r)) /\
      div r (r_max square_mod) = Ok q /\
      pow (min q one) (gradient_exponent square_mod) = Ok n /\
      is_finite n = false)).
Proof.
  assert (H : compute_multiplier_for_modifier (fl "5") (fl "5") zero square_mod
              = Ok (fl "1.5")) by run_it.
  split; [exact H |].
  exact (constant_modifier (fl "5") (fl "5") zero square_mod
           false 6755399441055744 (-52) (fl "1.5") eq_refl eq_refl H).
Defined.

(** The run of a stream whose second line is the degenerate move at
    the centroid of the modifier of radius 0. *)
Lemma only_the_multiplier_raises_witness :
  exists before_ line after_ tok cur z pl,
    [txt "G92 E0"; txt "G1 E2"; txt "G1 X1 Y1 E3"] = before_ ++ line :: after_ /\
    raised (run [point_mod] initial_state before_) = None /\
    written (run [point_mod] initial_state
               [txt "G92 E0"; txt "G1 E2"; txt "G1 X1 Y1 E3"])
      = written (run [point_mod] initial_state before_) /\
    List.length (written (run [point_mod] initial_state
                            [txt "G92 E0"; txt "G1 E2"; txt "G1 X1 Y1 E3"]))
      = List.length before_ /\
    qualifies line = true /\
    Re.search pattern_e line = Some tok /\
    of_text (Re.group1 tok) = Ok cur /\
    scan_z (final (run [point_mod] initial_state before_)) line = Ok z /\
    locate (final (run [point_mod] initial_state before_))
      (Re.search pattern_x line) (Re.search pattern_y line) = Ok pl /\
    move_multiplier [point_mod] (start_pt pl) (end_pt pl) z
      = Raise ZeroDivisionError /\
    process_line [point_mod] (final (run [point_mod] initial_state before_)) line
      = Raise ZeroDivisionError.
Proof.
  apply (only_the_multiplier_raises [point_mod] initial_state
           [txt "G92 E0"; txt "G1 E2"; txt "G1 X1 Y1 E3"] ZeroDivisionError).
  run_it.
Defined.

(** What that run writes before it stops. *)
Example run_stops_at_the_failing_line :
  let o := run [point_mod] initial_state
             [txt "G92 E0"; txt "G1 E2"; txt "G1 X1 Y1 E3"] in
  written o = [txt "G92 E0"] /\ raised o = Some ZeroDivisionError.
Proof. split; run_it. Qed.

(** A run with a cold-start move at the origin and then a move to
    (5, 5). *)
Lemma position_tracking_invariant_witness :
  raised (run [square_mod] initial_state [txt "G1 E1"; txt "G1 X5 Y5 E2"]) = None /\
  tracked (final (run [square_mod] initial_state [txt "G1 E1"; txt "G1 X5 Y5 E2"])).
Proof.
  assert (H : raised (run [square_mod] initial_state
                        [txt "G1 E1"; txt "G1 X5 Y5 E2"]) = None) by run_it.
  split; [exact H |].
  exact (proj1 (position_tracking_invariant [square_mod]
                  [txt "G1 E1"; txt "G1 X5 Y5 E2"] H)).
Defined.

(** A move out of the ball. *)
Lemma volumetric_crossings_are_averaged_witness :
  compute_effective_multiplier [ball_mod] (fl "20", fl "20") (fl "30", fl "20") zero 5
    = compute_average_multiplier [ball_mod] (fl "20", fl "20") (fl "30", fl "20") zero 5.
Proof.
  apply (volumetric_crossings_are_averaged [ball_mod]
           (fl "20", fl "20") (fl "30", fl "20") zero 5).
  constructor; [| constructor].
  left. exists (fl "20", fl "20", zero). reflexivity.
Defined.

(** Travel lines with X and Y numbers after a move to (1, 2). *)
Lemma travel_lines_are_invisible_witness :
  let lines := [txt "G0 X100 Y100"; txt "G1 X50 Y50 F3000"; txt "G92 X0 Y0";
                txt "G2 X3 Y3 I1 J1 E9"] in
  let o := run [square_mod] at_1_2 lines in
  raised o = None /\ written o = lines /\
  last_x (final o) = last_x at_1_2 /\ last_y (final o) = last_y at_1_2 /\
  positions_3d (final o) = positions_3d at_1_2 /\
  (Forall (fun line => startswith (txt "G92") line = false) lines ->
   new_E (final o) = new_E at_1_2 /\ last_E (final o) = last_E at_1_2).
Proof.
  apply (travel_lines_are_invisible [square_mod] at_1_2
           [txt "G0 X100 Y100"; txt "G1 X50 Y50 F3000"; txt "G92 X0 Y0";
            txt "G2 X3 Y3 I1 J1 E9"]).
  repeat (constructor; [left; run_it |]). constructor.
Defined.

(** The consequence: a move of which both ends are inside the square,
    made after a travel from outside, is taken to start outside. *)
Example travel_then_move :
  written (run [square_mod] initial_state
             [txt "G1 X20 Y5 E1"; txt "G0 X4 Y5"; txt "G1 X6 Y5 E2"])
    = [txt "G1 X20 Y5 E1.00000"; txt "G0 X4 Y5"; txt "G1 X6 Y5 E2.00000"].
Proof. vm_compute. reflexivity. Qed.

(** Two histories, one reset. *)
Lemma reset_forgets_extrusion_history_witness :
  written (run [square_mod] at_1_2 [txt "G92 E0"; txt "G1 X5 Y5 E1"])
    = written (run [square_mod]
                 {| new_E := fl "7.5"; last_E := fl "5";
                    last_x := Some (fl "1"); last_y := Some (fl "2"); last_z := zero;
                    positions_3d := [(fl "1", fl "2", zero, one)] |}
                 [txt "G92 E0"; txt "G1 X5 Y5 E1"]) /\
  raised (run [square_mod] at_1_2 [txt "G92 E0"; txt "G1 X5 Y5 E1"])
    = raised (run [square_mod]
                {| new_E := fl "7.5"; last_E := fl "5";
                   last_x := Some (fl "1"); last_y := Some (fl "2"); last_z := zero;
                   positions_3d := [(fl "1", fl "2", zero, one)] |}
                [txt "G92 E0"; txt "G1 X5 Y5 E1"]).
Proof.
  apply (reset_forgets_extrusion_history [square_mod] at_1_2
           {| new_E := fl "7.5"; last_E := fl "5";
              last_x := Some (fl "1"); last_y := Some (fl "2"); last_z := zero;
              positions_3d := [(fl "1", fl "2", zero, one)] |}
           (txt "G92 E0")
           {| Re.before := txt "G92 "; Re.matched := txt "E0"; Re.after := [] |}
           [txt "G1 X5 Y5 E1"]); try reflexivity; run_it.
Defined.

(** Three constant squares: the order shows in the last bits. *)
Example three_modifiers_order :
  compute_multiplier_multiple
    [constant_square "0.9"; constant_square "1.1"; constant_square "1.3"]
    (fl "5") (fl "5") zero
  <> compute_multiplier_multiple
    [constant_square "0.9"; constant_square "1.3"; constant_square "1.1"]
    (fl "5") (fl "5") zero.
Proof. vm_compute. intro H. discriminate H. Qed.

(** Two of them, in both orders. *)
Lemma two_modifiers_commute_witness :
  compute_multiplier_multiple [constant_square "0.9"; constant_square "1.1"]
    (fl "5") (fl "5") zero = Ok (mul (fl "0.9") (fl "1.1")) /\
  compute_multiplier_multiple [constant_square "1.1"; constant_square "0.9"]
    (fl "5") (fl "5") zero = Ok (mul (fl "0.9") (fl "1.1")).
Proof.
  apply (two_modifiers_commute (constant_square "0.9") (constant_square "1.1")
           (fl "5") (fl "5") zero (fl "0.9") (fl "1.1"));
    vm_compute; reflexivity.
Defined.
